(** * shopify-mcp: the ShopifyQL query builder and the tools' execute functions

    A shallow embedding of [src/utils/shopifyqlHelpers.ts] and of the
    [execute] functions of the tools, with the theorems that settle the
    properties stated for them. *)

From Stdlib Require Import Ascii.
From stdpp Require Import gmap strings list pretty.

Open Scope string_scope.

(** ** The fragment of JavaScript the sources rely on *)

Module JS.

(** A [number], as far as the sources use one: the integer-valued doubles
    (which print in plain decimal while below 10^21 in magnitude; 0 and -0
    are both [Num 0]) and NaN. Fractional and infinite values are left out:
    they are truthy like any non-zero integer and differ only in how they
    print. *)
Inductive number :=
  | NaN
  | Num (z : Z).

(** The values that the query builder handles. [VInherited k] is what
    property [k] of [Object.prototype] holds: a built-in function, or for
    [__proto__] the prototype object itself. *)
Inductive value :=
  | VUndefined
  | VString (s : string)
  | VNumber (n : number)
  | VInherited (k : string).

(** The property names every object literal inherits from
    [Object.prototype]. *)
Definition Object_prototype_keys : list string :=
  [ "constructor"; "hasOwnProperty"; "isPrototypeOf"; "propertyIsEnumerable";
    "toLocaleString"; "toString"; "valueOf"; "__proto__";
    "__defineGetter__"; "__defineSetter__"; "__lookupGetter__";
    "__lookupSetter__" ].

(** [obj[key]] for an object literal [obj] whose own properties are [own]:
    an own property first, then the prototype chain, else [undefined]. *)
Definition Get (own : gmap string string) (key : string) : value :=
  match own !! key with
  | Some s => VString s
  | None =>
      if bool_decide (key ∈ Object_prototype_keys) then VInherited key
      else VUndefined
  end.

(** Truthiness: what [if (v)] and [v || d] test. *)
Definition ToBoolean (v : value) : bool :=
  match v with
  | VUndefined => false
  | VString s => negb (String.eqb s "")
  | VNumber NaN => false
  | VNumber (Num z) => negb (Z.eqb z 0)
  | VInherited _ => true
  end.

(** [v || d] *)
Definition or_else (v d : value) : value :=
  if ToBoolean v then v else d.

Definition Number_toString (n : number) : string :=
  match n with
  | NaN => "NaN"
  | Num z => pretty z
  end.

(** The source text of a built-in function, as V8 prints it. *)
Definition native_function (name : string) : string :=
  "function " +:+ name +:+ "() { [native code] }".

(** String conversion, as a template literal performs it. *)
Definition ToString (v : value) : string :=
  match v with
  | VUndefined => "undefined"
  | VString s => s
  | VNumber n => Number_toString n
  | VInherited k =>
      if String.eqb k "__proto__" then "[object Object]"
      else if String.eqb k "constructor" then native_function "Object"
      else native_function k
  end.

(** An optional property [p?: T] read from an object. *)
Definition optional {A} (inj : A → value) (o : option A) : value :=
  match o with
  | Some a => inj a
  | None => VUndefined
  end.

(** [array.push(x)] *)
Definition push {A} (array : list A) (x : A) : list A := array ++ [x].

(** [array.join(separator)]: [undefined] elements render as the empty
    string, every other element through [ToString]. *)
Definition join_element (v : value) : string :=
  match v with
  | VUndefined => ""
  | _ => ToString v
  end.

Definition Array_join (array : list value) (separator : string) : string :=
  String.concat separator (join_element <$> array).

(** What a [throw] carries: an [Error] object with its message, or some
    other value, kept as its [String(...)] rendering. *)
Inductive thrown :=
  | Error (message : string)
  | NotAnError (rendering : string).

(** The outcome of an [async] function: the promise resolves with a value
    or rejects with what was thrown. *)
Inductive outcome (A : Type) :=
  | Return (a : A)
  | Throw (e : thrown).
Arguments Return {A} a.
Arguments Throw {A} e.

(** Sequencing, [const x = await c; k]: a rejection skips the rest. *)
#[global] Instance outcome_ret : MRet outcome := @Return.
#[global] Instance outcome_bind : MBind outcome := λ A B k c,
  match c with
  | Return a => k a
  | Throw e => Throw e
  end.

(** [try { body } catch (error) { handler }] *)
Definition try_catch {A} (body : outcome A) (handler : thrown → outcome A)
  : outcome A :=
  match body with
  | Return a => Return a
  | Throw e => handler e
  end.

(** [error instanceof Error ? error.message : String(error)] *)
Definition message_of (error : thrown) : string :=
  match error with
  | Error message => message
  | NotAnError rendering => rendering
  end.

(** The [TypeError] V8 raises for [undefined.p]. *)
Definition TypeError_undefined (p : string) : thrown :=
  Error ("Cannot read properties of undefined (reading '" +:+ p +:+ "')").

End JS.

Import JS.

(** ** [src/utils/shopifyqlHelpers.ts] *)

Module shopifyqlHelpers.

Definition periodMap : gmap string string :=
  list_to_map
    [ ("today", "SINCE today");
      ("yesterday", "DURING yesterday");
      ("last_7_days", "SINCE -7d");
      ("last_30_days", "SINCE -30d");
      ("last_90_days", "SINCE -90d");
      ("last_month", "DURING last_month");
      ("this_month", "SINCE startOfMonth(0m)");
      ("this_year", "SINCE startOfYear(0y)");
      ("last_year", "DURING last_year") ].

Definition periodToShopifyQL (period : string) : value :=
  or_else (Get periodMap period) (VString "SINCE -30d").

Definition groupByMap : gmap string string :=
  list_to_map
    [ ("day", "GROUP BY day");
      ("week", "GROUP BY week");
      ("month", "GROUP BY month");
      ("product", "GROUP BY product_title");
      ("product_type", "GROUP BY product_type");
      ("channel", "GROUP BY sales_channel");
      ("region", "GROUP BY billing_country");
      ("customer_type", "GROUP BY customer_type") ].

Definition groupByToShopifyQL (groupBy : string) : value :=
  or_else (Get groupByMap groupBy) (VString "GROUP BY day").

Definition orderByMap : gmap string string :=
  list_to_map
    [ ("day", "ORDER BY day");
      ("week", "ORDER BY week");
      ("month", "ORDER BY month");
      ("product", "ORDER BY total_sales DESC");
      ("product_type", "ORDER BY total_sales DESC");
      ("channel", "ORDER BY total_sales DESC");
      ("region", "ORDER BY total_sales DESC");
      ("customer_type", "ORDER BY total_sales DESC") ].

Definition groupByToOrderBy (groupBy : string) : value :=
  or_else (Get orderByMap groupBy) (VString "ORDER BY day").

(** The [options] argument of [buildShopifyQLQuery]. *)
Record Options := {
  from : string;
  show : list string;
  where_ : option string;
  groupBy : option string;
  period : string;
  orderBy : option string;
  limit : option number
}.

(** The [parts] array as [buildShopifyQLQuery] has filled it when it
    reaches its [return]. *)
Definition buildParts (options : Options) : list value :=
  let parts :=
    [ VString ("FROM " +:+ from options);
      VString ("SHOW " +:+ String.concat ", " (show options)) ] in
  let parts :=
    if ToBoolean (optional VString (where_ options))
    then push parts
           (VString ("WHERE " +:+ ToString (optional VString (where_ options))))
    else parts in
  let parts := push parts (periodToShopifyQL (period options)) in
  let parts :=
    match groupBy options with
    | Some g =>
        if ToBoolean (VString g) then push parts (groupByToShopifyQL g)
        else parts
    | None => parts
    end in
  let parts :=
    if ToBoolean (optional VString (orderBy options))
    then push parts (optional VString (orderBy options))
    else
      match groupBy options with
      | Some g =>
          if ToBoolean (VString g) then push parts (groupByToOrderBy g)
          else parts
      | None => parts
      end in
  let parts :=
    if ToBoolean (optional VNumber (limit options))
    then push parts
           (VString ("LIMIT " +:+ ToString (optional VNumber (limit options))))
    else parts in
  parts.

Definition buildShopifyQLQuery (options : Options) : string :=
  Array_join (buildParts options) " ".

End shopifyqlHelpers.

(** ** What the tools share *)

(** The module-level [let shopifyClient: GraphQLClient], which
    [initialize] assigns: [None] before, [Some client] after. A client
    takes the name of the GraphQL operation and its variables, and the
    promise of [request] resolves with the response data or rejects. *)
Definition GraphQLClient (Variables Data : Type) : Type :=
  string → Variables → outcome Data.

Definition initialize {V D} (client : GraphQLClient V D)
  : option (GraphQLClient V D) := Some client.

(** [await shopifyClient.request(document, variables)] *)
Definition request {V D} (shopifyClient : option (GraphQLClient V D))
    (operation : string) (variables : V) : outcome D :=
  match shopifyClient with
  | Some client => client operation variables
  | None => Throw (TypeError_undefined "request")
  end.

(** The [catch] block every [execute] ends with: the cause's message
    behind the tool's own prefix. The [console.error] line before the
    [throw] writes to the error stream and has no part in the outcome. *)
Definition rethrow {A} (prefix : string) (error : thrown) : outcome A :=
  Throw (Error (prefix +:+ message_of error)).

(** [record[key] = v] on a [Record<string, T>] that started as [{}]:
    assigning a primitive to [__proto__] goes to the inherited setter,
    which ignores it; any other key becomes an own property. *)
Definition Set_property {A} (key : string) (v : A) (record : gmap string A)
  : gmap string A :=
  if String.eqb key "__proto__" then record else <[key := v]> record.

(** The response of the [shopifyqlQuery] field, as the four analytics
    tools declare it. [parseErrors] is declared [string[]]; the tools
    still guard against its absence, which is [None] here. *)
Module shopifyql.

Record Column := {
  name : string;
  dataType : string;
  displayName : string
}.

Record TableData := {
  columns : list Column;
  rows : list (list string)
}.

Record ShopifyqlQuery := {
  tableData : option TableData;
  parseErrors : option (list string)
}.

Record Data := { shopifyqlQuery : ShopifyqlQuery }.

Record Variables := { query : string }.

(** [data.shopifyqlQuery.parseErrors &&
     data.shopifyqlQuery.parseErrors.length > 0] *)
Definition hasParseErrors (data : Data) : bool :=
  match parseErrors (shopifyqlQuery data) with
  | Some errors => bool_decide (0 < length errors)
  | None => false
  end.

(** [throw new Error(`ShopifyQL parse errors:
     ${data.shopifyqlQuery.parseErrors.join("; ")}`)];
    only reached behind [hasParseErrors]. *)
Definition parseErrorsError (data : Data) : thrown :=
  Error ("ShopifyQL parse errors: " +:+
         String.concat "; " (default [] (parseErrors (shopifyqlQuery data)))).

(** The row objects two of the tools build:
    [columns.forEach((col, index) => { object[col.name] = row[index]; })]. *)
Definition rowObject (cols : list Column) (row : list string)
  : gmap string (option string) :=
  foldl (λ object ci, Set_property (name ci.2) (row !! ci.1) object)
        ∅ (imap (λ index col, (index, col)) cols).

End shopifyql.

(** ** [src/tools/analytics/runShopifyqlQuery.ts] *)

Module runShopifyqlQuery.
Import shopifyql.

Record Input := { query : string }.

Record Result := {
  columns : list Column;
  rows : list (list string);
  rowCount : nat
}.

Definition execute_try
    (shopifyClient : option (GraphQLClient Variables Data))
    (input : Input) : outcome Result :=
  let shopifyqlQuery := query input in
  let variables := {| shopifyql.query := shopifyqlQuery |} in
  data ← request shopifyClient "RunShopifyQLQuery" variables;
  if hasParseErrors data then Throw (parseErrorsError data)
  else
    match tableData (shopifyql.shopifyqlQuery data) with
    | None => Return {| columns := []; rows := []; rowCount := 0 |}
    | Some tableData =>
        Return {| columns := shopifyql.columns tableData;
                  rows := shopifyql.rows tableData;
                  rowCount := length (shopifyql.rows tableData) |}
    end.

Definition prefix : string := "Failed to execute ShopifyQL query: ".

Definition execute shopifyClient (input : Input) : outcome Result :=
  try_catch (execute_try shopifyClient input) (rethrow prefix).

End runShopifyqlQuery.

(** ** [src/tools/analytics/getSalesReport.ts] *)

Module getSalesReport.
Import shopifyql.

Record Input := {
  period : string;
  groupBy : string;
  metrics : list string;
  limit : number
}.

Record Result := {
  query : string;
  result_period : string;
  result_groupBy : string;
  columns : list Column;
  rows : list (list string);
  rowCount : nat
}.

Definition shopifyqlQuery (input : Input) : string :=
  shopifyqlHelpers.buildShopifyQLQuery
    {| shopifyqlHelpers.from := "sales";
       shopifyqlHelpers.show := metrics input;
       shopifyqlHelpers.where_ := None;
       shopifyqlHelpers.groupBy := Some (groupBy input);
       shopifyqlHelpers.period := period input;
       shopifyqlHelpers.orderBy := None;
       shopifyqlHelpers.limit := Some (limit input) |}.

Definition execute_try
    (shopifyClient : option (GraphQLClient Variables Data))
    (input : Input) : outcome Result :=
  let variables := {| shopifyql.query := shopifyqlQuery input |} in
  data ← request shopifyClient "GetSalesReport" variables;
  if hasParseErrors data then Throw (parseErrorsError data)
  else
    match tableData (shopifyql.shopifyqlQuery data) with
    | None =>
        Return {| query := shopifyqlQuery input;
                  result_period := period input;
                  result_groupBy := groupBy input;
                  columns := []; rows := []; rowCount := 0 |}
    | Some tableData =>
        Return {| query := shopifyqlQuery input;
                  result_period := period input;
                  result_groupBy := groupBy input;
                  columns := shopifyql.columns tableData;
                  rows := shopifyql.rows tableData;
                  rowCount := length (shopifyql.rows tableData) |}
    end.

Definition prefix : string := "Failed to fetch sales report: ".

Definition execute shopifyClient (input : Input) : outcome Result :=
  try_catch (execute_try shopifyClient input) (rethrow prefix).

End getSalesReport.

(** ** [src/tools/analytics/getProductPerformance.ts] *)

Module getProductPerformance.
Import shopifyql.

Record Input := {
  period : string;
  sortBy : string;
  limit : number;
  productType : option string
}.

Record Result := {
  query : string;
  result_period : string;
  result_sortBy : string;
  columns : list Column;
  products : list (gmap string (option string));
  productCount : nat
}.

Definition metrics : list string :=
  ["product_title"; "total_sales"; "orders"; "units_sold"].

Definition shopifyqlQuery (input : Input) : string :=
  let periodClause := shopifyqlHelpers.periodToShopifyQL (period input) in
  let whereClause :=
    if ToBoolean (optional VString (productType input))
    then "WHERE product_type = '" +:+
         ToString (optional VString (productType input)) +:+ "'"
    else "" in
  "FROM sales SHOW " +:+ String.concat ", " metrics +:+ " " +:+
  whereClause +:+ " " +:+ ToString periodClause +:+
  " GROUP BY product_title ORDER BY " +:+ sortBy input +:+
  " DESC LIMIT " +:+ ToString (VNumber (limit input)).

Definition execute_try
    (shopifyClient : option (GraphQLClient Variables Data))
    (input : Input) : outcome Result :=
  let variables := {| shopifyql.query := shopifyqlQuery input |} in
  data ← request shopifyClient "GetProductPerformance" variables;
  if hasParseErrors data then Throw (parseErrorsError data)
  else
    match tableData (shopifyql.shopifyqlQuery data) with
    | None =>
        Return {| query := shopifyqlQuery input;
                  result_period := period input;
                  result_sortBy := sortBy input;
                  columns := []; products := []; productCount := 0 |}
    | Some tableData =>
        let products :=
          rowObject (shopifyql.columns tableData) <$> shopifyql.rows tableData in
        Return {| query := shopifyqlQuery input;
                  result_period := period input;
                  result_sortBy := sortBy input;
                  columns := shopifyql.columns tableData;
                  products := products;
                  productCount := length products |}
    end.

Definition prefix : string := "Failed to fetch product performance: ".

Definition execute shopifyClient (input : Input) : outcome Result :=
  try_catch (execute_try shopifyClient input) (rethrow prefix).

End getProductPerformance.

(** ** [src/tools/analytics/getCustomerAnalytics.ts] *)

Module getCustomerAnalytics.
Import shopifyql.

Record Input := {
  period : string;
  reportType : string;
  groupBy : string
}.

(** The two shapes [execute] returns: without table data an object with
    empty [rows]; with table data one that adds [groupBy] and carries the
    row objects under [results]. *)
Inductive Result :=
  | NoTable (query period reportType : string)
      (columns : list Column) (rows : list (list string)) (rowCount : nat)
  | Table (query period reportType groupBy : string)
      (columns : list Column) (results : list (gmap string (option string)))
      (rowCount : nat).

Definition query (result : Result) : string :=
  match result with
  | NoTable query _ _ _ _ _ => query
  | Table query _ _ _ _ _ _ => query
  end.

Definition rowCount (result : Result) : nat :=
  match result with
  | NoTable _ _ _ _ _ rowCount => rowCount
  | Table _ _ _ _ _ _ rowCount => rowCount
  end.

(** The length of the collection a result carries ([rows] or [results]). *)
Definition collectionLength (result : Result) : nat :=
  match result with
  | NoTable _ _ _ _ rows _ => length rows
  | Table _ _ _ _ _ results _ => length results
  end.

Definition shopifyqlQuery (input : Input) : string :=
  let periodClause :=
    ToString (shopifyqlHelpers.periodToShopifyQL (period input)) in
  if String.eqb (reportType input) "acquisition" then
    "FROM sales SHOW total_sales, orders WHERE customer_type = 'First-time' OR customer_type = 'Returning' "
    +:+ periodClause +:+ " GROUP BY customer_type, " +:+ groupBy input +:+
    " ORDER BY " +:+ groupBy input
  else if String.eqb (reportType input) "retention" then
    "FROM sales SHOW total_sales, orders, average_order_value " +:+
    periodClause +:+ " GROUP BY customer_type ORDER BY total_sales DESC"
  else if String.eqb (reportType input) "spending" then
    "FROM sales SHOW total_sales, orders, average_order_value " +:+
    periodClause +:+
    " GROUP BY billing_country ORDER BY total_sales DESC LIMIT 20"
  else
    "FROM sales SHOW total_sales, orders, average_order_value " +:+
    periodClause +:+ " GROUP BY customer_type, " +:+ groupBy input +:+
    " ORDER BY " +:+ groupBy input.

Definition execute_try
    (shopifyClient : option (GraphQLClient Variables Data))
    (input : Input) : outcome Result :=
  let variables := {| shopifyql.query := shopifyqlQuery input |} in
  data ← request shopifyClient "GetCustomerAnalytics" variables;
  if hasParseErrors data then Throw (parseErrorsError data)
  else
    match tableData (shopifyql.shopifyqlQuery data) with
    | None =>
        Return (NoTable (shopifyqlQuery input) (period input)
                  (reportType input) [] [] 0)
    | Some tableData =>
        let results :=
          rowObject (shopifyql.columns tableData) <$> shopifyql.rows tableData in
        Return (Table (shopifyqlQuery input) (period input)
                  (reportType input) (groupBy input)
                  (shopifyql.columns tableData) results (length results))
    end.

Definition prefix : string := "Failed to fetch customer analytics: ".

Definition execute shopifyClient (input : Input) : outcome Result :=
  try_catch (execute_try shopifyClient input) (rethrow prefix).

End getCustomerAnalytics.

(** ** The connection wrappers of the GraphQL responses *)

Record Edge (A : Type) := { node : A }.
Arguments node {A} e.

Record Connection (A : Type) := { edges : list (Edge A) }.
Arguments edges {A} c.

(** ** String methods used by the tools *)

Module StringMethods.

(** [s.includes(c)] for a one-character [c] *)
Fixpoint includes (s : string) (c : Ascii.ascii) : bool :=
  match s with
  | EmptyString => false
  | String a rest => Ascii.eqb a c || includes rest c
  end.

(** [s.split(c)] for a one-character [c]: never empty, and the empty
    string splits into one empty segment. *)
Fixpoint split (s : string) (c : Ascii.ascii) : list string :=
  match s with
  | EmptyString => [""]
  | String a rest =>
      if Ascii.eqb a c then "" :: split rest c
      else
        match split rest c with
        | segment :: segments => String a segment :: segments
        | [] => [String a ""]
        end
  end.

(** [array.pop()], for its value: the last element, [undefined] when the
    array is empty. *)
Definition pop (array : list string) : option string := last array.

End StringMethods.

(** ** [src/tools/getInventoryLevels.ts] *)

Module getInventoryLevels.
Import StringMethods.

Record Input := {
  limit : number;
  sku : option string;
  productId : option string
}.

Record Variables := {
  first : number;
  query : option string
}.

(** The response, as [execute] declares it. *)
Record Quantity := { name : string; quantity : Z }.
Record Location := { location_id : string; location_name : string }.
Record LevelNode := {
  level_id : string;
  quantities : list Quantity;
  location : Location
}.
Record Product := { product_id : string; product_title : string }.
Record VariantNode := {
  variant_id : string;
  variant_title : string;
  variant_displayName : string;
  product : Product
}.
Record ItemNode := {
  item_id : string;
  item_sku : option string;
  item_tracked : bool;
  item_inventoryLevels : Connection LevelNode;
  item_variant : option VariantNode
}.
Record Data := { data_inventoryItems : Connection ItemNode }.

(** What [execute] returns. *)
Record Level := {
  locationId : string;
  locationName : string;
  available : Z;
  incoming : Z;
  committed : Z;
  reserved : Z;
  onHand : Z
}.
Record Variant := {
  id : string;
  title : string;
  displayName : string;
  productId_ : string;
  productTitle : string
}.
Record Item := {
  inventoryItem_id : string;
  inventoryItem_sku : option string;
  tracked : bool;
  variant : option Variant;
  inventoryLevels : list Level;
  totalAvailable : Z;
  totalOnHand : Z
}.
Record Result := {
  inventoryItems : list Item;
  itemCount : nat
}.

(** The [queryFilter] variable once the filter has been built. *)
Definition queryFilter (input : Input) : option string :=
  if ToBoolean (optional VString (sku input))
  then Some ("sku:" +:+ ToString (optional VString (sku input)))
  else
    match productId input with
    | Some productId =>
        if ToBoolean (VString productId) then
          let numericId :=
            if includes productId "/"%char
            then optional VString (pop (split productId "/"%char))
            else VString productId in
          Some ("product_id:" +:+ ToString numericId)
        else None
    | None => None
    end.

(** [quantities.forEach((q) => { quantityMap[q.name] = q.quantity; })]
    on [quantityMap = {}] *)
Definition quantityMap (quantities : list Quantity) : gmap string Z :=
  foldl (λ quantityMap q, Set_property (name q) (quantity q) quantityMap)
        ∅ quantities.

(** [quantityMap[key] || 0]. The keys that [execute] reads are none of
    the names [Object.prototype] defines, so a read finds an own
    property or [undefined]. *)
Definition quantityOrZero (quantityMap : gmap string Z) (key : string) : Z :=
  match quantityMap !! key with
  | Some q => if Z.eqb q 0 then 0 else q
  | None => 0
  end.

Definition formatLevel (level : LevelNode) : Level :=
  let quantityMap := quantityMap (quantities level) in
  {| locationId := location_id (location level);
     locationName := location_name (location level);
     available := quantityOrZero quantityMap "available";
     incoming := quantityOrZero quantityMap "incoming";
     committed := quantityOrZero quantityMap "committed";
     reserved := quantityOrZero quantityMap "reserved";
     onHand := quantityOrZero quantityMap "on_hand" |}.

Definition formatItem (item : ItemNode) : Item :=
  let levels := (λ levelEdge, formatLevel (node levelEdge))
                  <$> edges (item_inventoryLevels item) in
  {| inventoryItem_id := item_id item;
     inventoryItem_sku := item_sku item;
     tracked := item_tracked item;
     variant :=
       match item_variant item with
       | Some v =>
           Some {| id := variant_id v;
                   title := variant_title v;
                   displayName := variant_displayName v;
                   productId_ := product_id (product v);
                   productTitle := product_title (product v) |}
       | None => None
       end;
     inventoryLevels := levels;
     totalAvailable := foldl (λ sum l, sum + available l)%Z 0%Z levels;
     totalOnHand := foldl (λ sum l, sum + onHand l)%Z 0%Z levels |}.

Definition execute_try
    (shopifyClient : option (GraphQLClient Variables Data))
    (input : Input) : outcome Result :=
  let variables := {| first := limit input; query := queryFilter input |} in
  data ← request shopifyClient "GetInventoryLevels" variables;
  let inventoryItems := (λ edge, formatItem (node edge))
                          <$> edges (data_inventoryItems data) in
  Return {| inventoryItems := inventoryItems;
            itemCount := length inventoryItems |}.

Definition prefix : string := "Failed to fetch inventory levels: ".

Definition execute shopifyClient (input : Input) : outcome Result :=
  try_catch (execute_try shopifyClient input) (rethrow prefix).

End getInventoryLevels.

(** ** [src/tools/getLocations.ts] *)

Module getLocations.

Record Input := {
  limit : number;
  includeInactive : bool
}.

Record Variables := {
  first : number;
  variables_includeInactive : bool
}.

Record Address := {
  address1 : option string;
  address2 : option string;
  city : option string;
  province : option string;
  provinceCode : option string;
  country : option string;
  countryCode : option string;
  zip : option string;
  phone : option string
}.

(** A location node of the response; [execute] returns objects of the
    same shape. *)
Record Location := {
  id : string;
  name : string;
  isActive : bool;
  fulfillsOnlineOrders : bool;
  hasActiveInventory : bool;
  shipsInventory : bool;
  address : Address
}.

Record Data := { data_locations : Connection Location }.

Record Result := {
  locations : list Location;
  locationCount : nat
}.

Definition formatLocation (loc : Location) : Location :=
  {| id := id loc;
     name := name loc;
     isActive := isActive loc;
     fulfillsOnlineOrders := fulfillsOnlineOrders loc;
     hasActiveInventory := hasActiveInventory loc;
     shipsInventory := shipsInventory loc;
     address :=
       {| address1 := address1 (address loc);
          address2 := address2 (address loc);
          city := city (address loc);
          province := province (address loc);
          provinceCode := provinceCode (address loc);
          country := country (address loc);
          countryCode := countryCode (address loc);
          zip := zip (address loc);
          phone := phone (address loc) |} |}.

Definition execute_try
    (shopifyClient : option (GraphQLClient Variables Data))
    (input : Input) : outcome Result :=
  let variables :=
    {| first := limit input;
       variables_includeInactive := includeInactive input |} in
  data ← request shopifyClient "GetLocations" variables;
  let locations := (λ edge, formatLocation (node edge))
                     <$> edges (data_locations data) in
  Return {| locations := locations; locationCount := length locations |}.

Definition prefix : string := "Failed to fetch locations: ".

Definition execute shopifyClient (input : Input) : outcome Result :=
  try_catch (execute_try shopifyClient input) (rethrow prefix).

End getLocations.

(** ** [src/tools/searchOrders.ts] *)

Module searchOrders.

Record Input := {
  query : string;
  limit : number;
  sortKey : string;
  reverse : bool
}.

Record Variables := {
  first : number;
  variables_query : string;
  variables_sortKey : string;
  variables_reverse : bool
}.

Record Money := { amount : string; currencyCode : string }.
Record MoneySet := { shopMoney : Money }.

Record Customer := {
  customer_id : string;
  firstName : option string;
  lastName : option string;
  email : option string
}.

Record ShippingAddress := {
  city : option string;
  province : option string;
  country : option string
}.

Record LineItemNode := {
  lineItem_title : string;
  lineItem_quantity : Z;
  originalTotalSet : MoneySet
}.

Record OrderNode := {
  node_id : string;
  node_name : string;
  node_createdAt : string;
  node_updatedAt : string;
  node_processedAt : option string;
  displayFinancialStatus : string;
  displayFulfillmentStatus : string;
  node_confirmed : bool;
  node_closed : bool;
  node_cancelledAt : option string;
  totalPriceSet : MoneySet;
  subtotalPriceSet : MoneySet;
  totalTaxSet : MoneySet;
  totalShippingPriceSet : MoneySet;
  node_customer : option Customer;
  node_shippingAddress : option ShippingAddress;
  node_tags : list string;
  node_note : option string;
  node_lineItems : Connection LineItemNode
}.

Record Data := { data_orders : Connection OrderNode }.

Record LineItem := {
  title : string;
  quantity : Z;
  lineItem_totalPrice : Money
}.

Record Order := {
  id : string;
  name : string;
  createdAt : string;
  updatedAt : string;
  processedAt : option string;
  financialStatus : string;
  fulfillmentStatus : string;
  confirmed : bool;
  closed : bool;
  cancelledAt : option string;
  totalPrice : Money;
  subtotalPrice : Money;
  totalTax : Money;
  totalShipping : Money;
  customer : option Customer;
  shippingAddress : option ShippingAddress;
  tags : list string;
  note : option string;
  lineItems : list LineItem
}.

Record Result := {
  result_query : string;
  result_sortKey : string;
  result_reverse : bool;
  orders : list Order;
  orderCount : nat
}.

Definition flatten (set : MoneySet) : Money :=
  {| amount := amount (shopMoney set);
     currencyCode := currencyCode (shopMoney set) |}.

Definition formatOrder (order : OrderNode) : Order :=
  {| id := node_id order;
     name := node_name order;
     createdAt := node_createdAt order;
     updatedAt := node_updatedAt order;
     processedAt := node_processedAt order;
     financialStatus := displayFinancialStatus order;
     fulfillmentStatus := displayFulfillmentStatus order;
     confirmed := node_confirmed order;
     closed := node_closed order;
     cancelledAt := node_cancelledAt order;
     totalPrice := flatten (totalPriceSet order);
     subtotalPrice := flatten (subtotalPriceSet order);
     totalTax := flatten (totalTaxSet order);
     totalShipping := flatten (totalShippingPriceSet order);
     customer :=
       match node_customer order with
       | Some c =>
           Some {| customer_id := customer_id c;
                   firstName := firstName c;
                   lastName := lastName c;
                   email := email c |}
       | None => None
       end;
     shippingAddress :=
       match node_shippingAddress order with
       | Some a =>
           Some {| city := city a; province := province a;
                   country := country a |}
       | None => None
       end;
     tags := node_tags order;
     note := node_note order;
     lineItems :=
       (λ li, {| title := lineItem_title (node li);
                 quantity := lineItem_quantity (node li);
                 lineItem_totalPrice := flatten (originalTotalSet (node li)) |})
         <$> edges (node_lineItems order) |}.

Definition execute_try
    (shopifyClient : option (GraphQLClient Variables Data))
    (input : Input) : outcome Result :=
  let variables :=
    {| first := limit input;
       variables_query := query input;
       variables_sortKey := sortKey input;
       variables_reverse := reverse input |} in
  data ← request shopifyClient "SearchOrders" variables;
  let orders := (λ edge, formatOrder (node edge))
                  <$> edges (data_orders data) in
  Return {| result_query := query input;
            result_sortKey := sortKey input;
            result_reverse := reverse input;
            orders := orders;
            orderCount := length orders |}.

Definition prefix : string := "Failed to search orders: ".

Definition execute shopifyClient (input : Input) : outcome Result :=
  try_catch (execute_try shopifyClient input) (rethrow prefix).

End searchOrders.

(** ** [src/tools/getCollections.ts] *)

Module getCollections.

Record Input := {
  limit : number;
  searchQuery : option string;
  collectionType : string
}.

Record Variables := {
  first : number;
  query : option string
}.

Record Image := { url : string; altText : option string }.
Record Rule := { column : string; relation : string; condition : string }.
Record RuleSet := { appliedDisjunctively : bool; rules : list Rule }.
Record ProductsCount := { count : Z }.

Record CollectionNode := {
  node_id : string;
  node_title : string;
  node_handle : string;
  node_description : option string;
  descriptionHtml : option string;
  productsCount : ProductsCount;
  node_sortOrder : string;
  node_templateSuffix : option string;
  node_updatedAt : string;
  image : option Image;
  ruleSet : option RuleSet
}.

Record Data := { data_collections : Connection CollectionNode }.

Record Collection := {
  id : string;
  title : string;
  handle : string;
  description : option string;
  productCount : Z;
  sortOrder : string;
  templateSuffix : option string;
  updatedAt : string;
  imageUrl : option string;
  imageAltText : option string;
  result_collectionType : string;
  result_rules : option RuleSet
}.

Record Result := {
  collections : list Collection;
  collectionCount : nat
}.

(** The [queryFilter] variable once the filters have been collected. *)
Definition queryFilter (input : Input) : option string :=
  let filters : list string := [] in
  let filters :=
    if ToBoolean (optional VString (searchQuery input))
    then push filters
           ("title:*" +:+ ToString (optional VString (searchQuery input)) +:+ "*")
    else filters in
  let filters :=
    if String.eqb (collectionType input) "smart"
    then push filters "collection_type:smart"
    else if String.eqb (collectionType input) "manual"
    then push filters "collection_type:custom"
    else filters in
  if bool_decide (0 < length filters)
  then Some (String.concat " AND " filters)
  else None.

(** [s || null] for a string that may be absent *)
Definition or_null (s : option string) : option string :=
  match s with
  | Some s => if String.eqb s "" then None else Some s
  | None => None
  end.

Definition formatCollection (col : CollectionNode) : Collection :=
  let isSmartCollection :=
    match ruleSet col with
    | Some ruleSet => bool_decide (0 < length (rules ruleSet))
    | None => false
    end in
  {| id := node_id col;
     title := node_title col;
     handle := node_handle col;
     description := node_description col;
     productCount := count (productsCount col);
     sortOrder := node_sortOrder col;
     templateSuffix := node_templateSuffix col;
     updatedAt := node_updatedAt col;
     imageUrl := or_null (url <$> image col);
     imageAltText := or_null (image col ≫= altText);
     result_collectionType := if isSmartCollection then "smart" else "manual";
     result_rules :=
       if isSmartCollection
       then (λ ruleSet,
               {| appliedDisjunctively := appliedDisjunctively ruleSet;
                  rules := rules ruleSet |}) <$> ruleSet col
       else None |}.

Definition execute_try
    (shopifyClient : option (GraphQLClient Variables Data))
    (input : Input) : outcome Result :=
  let variables := {| first := limit input; query := queryFilter input |} in
  data ← request shopifyClient "GetCollections" variables;
  let collections := (λ edge, formatCollection (node edge))
                       <$> edges (data_collections data) in
  Return {| collections := collections;
            collectionCount := length collections |}.

Definition prefix : string := "Failed to fetch collections: ".

Definition execute shopifyClient (input : Input) : outcome Result :=
  try_catch (execute_try shopifyClient input) (rethrow prefix).

End getCollections.

(** ** Vocabulary of the statements *)

(** [s.startsWith(p)], [s.endsWith(p)] and [s.includes(p)] as
    propositions. *)
Definition startsWith (s p : string) : Prop := ∃ rest, s = p +:+ rest.
Definition endsWith (s p : string) : Prop := ∃ before, s = before +:+ p.
Definition contains (s p : string) : Prop :=
  ∃ before rest, s = before +:+ p +:+ rest.

(** The last character of a string. *)
Fixpoint lastChar (s : string) : option Ascii.ascii :=
  match s with
  | EmptyString => None
  | String a EmptyString => Some a
  | String _ rest => lastChar rest
  end.

(** The clauses of a query, one definition per clause, written from the
    description of the builder rather than from its statements. *)
Module Clauses.
Import shopifyqlHelpers.

Definition supportedPeriods : list string :=
  [ "today"; "yesterday"; "last_7_days"; "last_30_days"; "last_90_days";
    "last_month"; "this_month"; "this_year"; "last_year" ].

Definition timeGroupings : list string := ["day"; "week"; "month"].

Definition salesGroupings : list string :=
  ["product"; "product_type"; "channel"; "region"; "customer_type"].

(** The column a non-time grouping token groups by. *)
Definition column (token : string) : string :=
  if String.eqb token "product" then "product_title"
  else if String.eqb token "channel" then "sales_channel"
  else if String.eqb token "region" then "billing_country"
  else token.

(** A string input counts as given when it is there and not empty. *)
Definition given (input : option string) : option string :=
  match input with
  | Some s => if String.eqb s "" then None else Some s
  | None => None
  end.

Definition fromClause (o : Options) : value :=
  VString ("FROM " +:+ from o).

Definition showClause (o : Options) : value :=
  VString ("SHOW " +:+ String.concat ", " (show o)).

Definition whereClause (o : Options) : list value :=
  match given (where_ o) with
  | Some w => [VString ("WHERE " +:+ w)]
  | None => []
  end.

Definition periodClause (o : Options) : value :=
  periodToShopifyQL (period o).

Definition groupByClause (o : Options) : list value :=
  match given (groupBy o) with
  | Some g => [groupByToShopifyQL g]
  | None => []
  end.

(** The ordering the caller asked for, if any. *)
Definition explicitOrderBy (o : Options) : list value :=
  match given (orderBy o) with
  | Some ordering => [VString ordering]
  | None => []
  end.

(** The ordering that goes with the grouping, if there is a grouping. *)
Definition defaultOrderBy (o : Options) : list value :=
  match given (groupBy o) with
  | Some g => [groupByToOrderBy g]
  | None => []
  end.

Definition orderByClause (o : Options) : list value :=
  match given (orderBy o) with
  | Some _ => explicitOrderBy o
  | None => defaultOrderBy o
  end.

Definition limitClause (o : Options) : list value :=
  match limit o with
  | Some (Num z) =>
      if decide (z = 0%Z) then [] else [VString ("LIMIT " +:+ pretty z)]
  | Some NaN | None => []
  end.


(** The clauses in their order, the ordering clause falling back on the
    grouping. *)
Definition clauses (o : Options) : list value :=
  [fromClause o; showClause o] ++ whereClause o ++ [periodClause o] ++
  groupByClause o ++ orderByClause o ++ limitClause o.

Definition withoutLimit (o : Options) : Options :=
  {| from := from o; show := show o; where_ := where_ o;
     groupBy := groupBy o; period := period o; orderBy := orderBy o;
     limit := None |}.

(** The query of the sales report example. *)
Definition salesExample : Options :=
  {| from := "sales"; show := ["total_sales"; "orders"]; where_ := None;
     groupBy := Some "day"; period := "last_7_days"; orderBy := None;
     limit := Some (Num 50) |}.


(** Queries whose limit is NaN, and zero. *)
Definition nanLimitExample : Options :=
  {| from := "sales"; show := ["total_sales"]; where_ := None;
     groupBy := None; period := "last_30_days"; orderBy := None;
     limit := Some NaN |}.

Definition zeroLimitExample : Options :=
  {| from := "sales"; show := ["total_sales"]; where_ := None;
     groupBy := None; period := "last_30_days"; orderBy := None;
     limit := Some (Num 0) |}.

(** A grouping and its default ordering name one column. *)
Definition sameColumn (token : string) : Prop :=
  ∃ col,
    groupByToShopifyQL token = VString ("GROUP BY " +:+ col) ∧
    (groupByToOrderBy token = VString ("ORDER BY " +:+ col) ∨
     groupByToOrderBy token = VString ("ORDER BY " +:+ col +:+ " DESC")).

End Clauses.

(** The statements about the tools. *)
Module Policy.

(** A client whose every request is rejected with [cause]. *)
Definition failing {V D} (cause : thrown) : GraphQLClient V D :=
  λ _ _, Throw cause.

(** A client that resolves every request with [data]. *)
Definition answering {V D} (data : D) : GraphQLClient V D :=
  λ _ _, Return data.

(** [result] passes on what [body] returned, and turns whatever [body]
    threw into one [Error] whose message is [prefix] followed by the
    message of the cause. *)
Definition reraised {A} (prefix : string) (body result : outcome A) : Prop :=
  (∀ r, body = Return r → result = Return r) ∧
  (∀ cause, body = Throw cause →
     result = Throw (Error (prefix +:+ message_of cause))).

(** The error policy of a tool: every failure of its [try] block is
    re-raised behind [prefix]; so is a rejected request, and so is the
    use of the client before [initialize]. *)
Definition catchesAll {V D I R} (prefix : string)
    (execute_try execute : option (GraphQLClient V D) → I → outcome R)
  : Prop :=
  (∀ shopifyClient input,
     reraised prefix (execute_try shopifyClient input)
       (execute shopifyClient input)) ∧
  (∀ cause input,
     execute (Some (failing cause)) input =
       Throw (Error (prefix +:+ message_of cause))) ∧
  (∀ input,
     execute None input =
       Throw (Error (prefix +:+ message_of (TypeError_undefined "request")))).

(** [result] is an error whose message is [prefix], then the parse errors
    joined with a semicolon and a space. *)
Definition raisesParseErrors {R} (prefix : string) (errors : list string)
    (result : outcome R) : Prop :=
  ∃ message,
    result = Throw (Error message) ∧
    message = prefix +:+ "ShopifyQL parse errors: " +:+
              String.concat "; " errors ∧
    contains message (String.concat "; " errors).

(** The results of [execute] carry the query of the input: some reading
    [echo] of a result gives it back, whatever the client answers. *)
Definition echoesQuery {V D I R}
    (execute : option (GraphQLClient V D) → I → outcome R)
    (resolved : I → string) : Prop :=
  ∃ echo : R → string,
    ∀ client input r,
      execute (Some client) input = Return r → echo r = resolved input.

(** [data.shopifyqlQuery.tableData] *)
Definition tableOf (data : shopifyql.Data) : option shopifyql.TableData :=
  shopifyql.tableData (shopifyql.shopifyqlQuery data).

Definition sumZ (l : list Z) : Z := foldr Z.add 0%Z l.

(** The names [getInventoryLevels] reads from a quantity map. *)
Definition quantityNames : list string :=
  ["available"; "incoming"; "committed"; "reserved"; "on_hand"].

(** No quantity of the level carries the name [key]. *)
Definition lacks (level : getInventoryLevels.LevelNode) (key : string) : Prop :=
  ∀ q, q ∈ getInventoryLevels.quantities level →
       getInventoryLevels.name q ≠ key.

(** A response with a table and two parse errors. *)
Definition rejectedQuery : shopifyql.Data :=
  {| shopifyql.shopifyqlQuery :=
       {| shopifyql.tableData :=
            Some {| shopifyql.columns :=
                      [ {| shopifyql.name := "day";
                           shopifyql.dataType := "date";
                           shopifyql.displayName := "Day" |} ];
                    shopifyql.rows := [["2024-01-01"]] |};
          shopifyql.parseErrors :=
            Some ["unknown column x"; "unexpected token"] |} |}.

(** A response without table data and without parse errors. *)
Definition noTable : shopifyql.Data :=
  {| shopifyql.shopifyqlQuery :=
       {| shopifyql.tableData := None; shopifyql.parseErrors := Some [] |} |}.

(** An inventory response: one item at two locations, the second of
    which reports no "reserved" quantity. *)
Definition twoLocations : getInventoryLevels.Data :=
  let quantity name q :=
    {| getInventoryLevels.name := name; getInventoryLevels.quantity := q |} in
  let level id quantities :=
    {| node :=
         {| getInventoryLevels.level_id := id;
            getInventoryLevels.quantities := quantities;
            getInventoryLevels.location :=
              {| getInventoryLevels.location_id := id;
                 getInventoryLevels.location_name := "Warehouse" |} |} |} in
  {| getInventoryLevels.data_inventoryItems :=
       {| edges :=
            [ {| node :=
                   {| getInventoryLevels.item_id := "gid://shopify/InventoryItem/1";
                      getInventoryLevels.item_sku := Some "SKU-1";
                      getInventoryLevels.item_tracked := true;
                      getInventoryLevels.item_inventoryLevels :=
                        {| edges :=
                             [ level "L1"
                                 [ quantity "available" 5%Z;
                                   quantity "reserved" 2%Z;
                                   quantity "on_hand" 7%Z ];
                               level "L2"
                                 [ quantity "available" 3%Z;
                                   quantity "on_hand" 4%Z ] ] |};
                      getInventoryLevels.item_variant := None |} |} ] |} |}.

End Policy.

(** ** [src/index.ts]: configuration at start-up *)

Module index.

(** What a setting resolves to, [argv.x || process.env.X]: the value of
    the command-line flag when it is truthy, else the environment
    variable, which is a string or [undefined]. *)
Inductive setting (V : Type) :=
  | FromArgv (v : V)
  | FromEnv (s : option string).
Arguments FromArgv {V} v.
Arguments FromEnv {V} s.

(** How the script ends up: [process.exit(code)] after the lines written
    with [console.error], or past the checks with the GraphQL client built
    for [endpoint] with the two headers. *)
Inductive startup (V : Type) :=
  | Exit (code : Z) (stderr : list string)
  | Running (endpoint : string) (accessToken : setting V)
      (contentType : string).
Arguments Exit {V} code stderr.
Arguments Running {V} endpoint accessToken contentType.

Section Startup.

(** The values minimist gives a flag (strings, numbers, booleans,
    arrays), with their truthiness and their string conversion. *)
Context {V : Type} (truthy : V → bool) (render : V → string).

(** [argv.x || process.env.X], for a flag that may be absent *)
Definition or_env (flag : option V) (env : option string) : setting V :=
  match flag with
  | Some v => if truthy v then FromArgv v else FromEnv env
  | None => FromEnv env
  end.

(** [!setting] is false *)
Definition present (s : setting V) : bool :=
  match s with
  | FromArgv v => truthy v
  | FromEnv (Some text) => negb (String.eqb text "")
  | FromEnv None => false
  end.

(** [`${setting}`] *)
Definition text (s : setting V) : string :=
  match s with
  | FromArgv v => render v
  | FromEnv (Some text) => text
  | FromEnv None => "undefined"
  end.

(** The script from the reading of the settings to the construction of
    the client. [env_*] is [process.env] after [dotenv.config()]; the two
    assignments that store the settings back into [process.env] are read
    by nothing afterwards. *)
Definition start (argv_accessToken argv_domain : option V)
    (env_SHOPIFY_ACCESS_TOKEN env_MYSHOPIFY_DOMAIN : option string)
  : startup V :=
  let SHOPIFY_ACCESS_TOKEN :=
    or_env argv_accessToken env_SHOPIFY_ACCESS_TOKEN in
  let MYSHOPIFY_DOMAIN := or_env argv_domain env_MYSHOPIFY_DOMAIN in
  if negb (present SHOPIFY_ACCESS_TOKEN) then
    Exit 1 [ "Error: SHOPIFY_ACCESS_TOKEN is required.";
             "Please provide it via command line argument or .env file.";
             "  Command line: --accessToken=your_token" ]
  else if negb (present MYSHOPIFY_DOMAIN) then
    Exit 1 [ "Error: MYSHOPIFY_DOMAIN is required.";
             "Please provide it via command line argument or .env file.";
             "  Command line: --domain=your-store.myshopify.com" ]
  else
    Running ("https://" +:+ text MYSHOPIFY_DOMAIN +:+
             "/admin/api/2025-10/graphql.json")
            SHOPIFY_ACCESS_TOKEN "application/json".

End Startup.

End index.

(** ** Vocabulary of the further statements *)

Module Coverage.
Import shopifyqlHelpers Clauses.

(** The quantity of the last entry of the list that carries the name. *)
Definition lastQuantity (quantities : list getInventoryLevels.Quantity)
    (key : string) : option Z :=
  getInventoryLevels.quantity
    <$> last (filter (λ q, getInventoryLevels.name q = key) quantities).

(** The options with every empty string input taken away. *)
Definition withoutEmpty (o : Options) : Options :=
  {| from := from o; show := show o; where_ := given (where_ o);
     groupBy := given (groupBy o); period := period o;
     orderBy := given (orderBy o); limit := limit o |}.

(** The options whose query get-product-performance writes by hand, for
    a product type [t]. *)
Definition productOptions (input : getProductPerformance.Input) (t : string)
  : Options :=
  {| from := "sales";
     show := getProductPerformance.metrics;
     where_ := Some ("product_type = '" +:+ t +:+ "'");
     groupBy := Some "product";
     period := getProductPerformance.period input;
     orderBy :=
       Some ("ORDER BY " +:+ getProductPerformance.sortBy input +:+ " DESC");
     limit := Some (getProductPerformance.limit input) |}.

Definition mugsInput : getProductPerformance.Input :=
  {| getProductPerformance.period := "last_30_days";
     getProductPerformance.sortBy := "orders";
     getProductPerformance.limit := Num 20;
     getProductPerformance.productType := Some "Mugs" |}.

(** The options whose query get-customer-analytics writes by hand for the
    retention report and for the spending report. *)
Definition retentionOptions (period : string) : Options :=
  {| from := "sales";
     show := ["total_sales"; "orders"; "average_order_value"];
     where_ := None; groupBy := Some "customer_type"; period := period;
     orderBy := None; limit := None |}.

Definition spendingOptions (period : string) : Options :=
  {| from := "sales";
     show := ["total_sales"; "orders"; "average_order_value"];
     where_ := None; groupBy := Some "region"; period := period;
     orderBy := None; limit := Some (Num 20) |}.

(** The grouping tokens the schema of get-sales-report admits. *)
Definition reportGroupings : list string :=
  ["day"; "week"; "month"; "product"; "channel"; "region"].

(** The ordering that goes with a grouping token. *)
Definition ordering (token : string) : string :=
  if bool_decide (token ∈ timeGroupings) then token else "total_sales DESC".

(** A column of a table. *)
Definition col (name : string) : shopifyql.Column :=
  {| shopifyql.name := name; shopifyql.dataType := "string";
     shopifyql.displayName := name |}.

(** A response with a table of two rows, the second one short. *)
Definition twoRows : shopifyql.Data :=
  {| shopifyql.shopifyqlQuery :=
       {| shopifyql.tableData :=
            Some {| shopifyql.columns := [col "product_title"; col "orders"];
                    shopifyql.rows := [["Mug"; "3"]; ["Cap"]] |};
          shopifyql.parseErrors := None |} |}.

Definition reportInput : getSalesReport.Input :=
  {| getSalesReport.period := "last_7_days";
     getSalesReport.groupBy := "day";
     getSalesReport.metrics := ["total_sales"; "orders"];
     getSalesReport.limit := Num 50 |}.

(** Two locations, and a response that lists them. *)
Definition shop (id name : string) (city : option string)
  : getLocations.Location :=
  {| getLocations.id := id;
     getLocations.name := name;
     getLocations.isActive := true;
     getLocations.fulfillsOnlineOrders := true;
     getLocations.hasActiveInventory := true;
     getLocations.shipsInventory := false;
     getLocations.address :=
       {| getLocations.address1 := None; getLocations.address2 := None;
          getLocations.city := city; getLocations.province := None;
          getLocations.provinceCode := None; getLocations.country := None;
          getLocations.countryCode := None; getLocations.zip := None;
          getLocations.phone := None |} |}.

Definition twoShops : getLocations.Data :=
  {| getLocations.data_locations :=
       {| edges :=
            [ {| node := shop "gid://shopify/Location/1" "Warehouse"
                           (Some "Lyon") |};
              {| node := shop "gid://shopify/Location/2" "Store" None |} ] |} |}.

(** The values of a flag, reduced to strings for the examples. *)
Definition flagTruthy (v : string) : bool := negb (String.eqb v "").
Definition flagText (v : string) : string := v.

End Coverage.

(** * Properties *)

(** ** Strings *)

Lemma append_cons (x : ascii) (a b : string) :
  String x a +:+ b = String x (a +:+ b).
Proof. done. Qed.

Lemma append_assoc (a b c : string) : (a +:+ b) +:+ c = a +:+ b +:+ c.
Proof.
  induction a as [|x a IH]; [done|]. by rewrite !append_cons, IH.
Qed.

Lemma append_nil_r (a : string) : a +:+ "" = a.
Proof.
  induction a as [|x a IH]; [done|]. by rewrite append_cons, IH.
Qed.

Lemma append_empty_inv (a b : string) : a +:+ b = "" → a = "" ∧ b = "".
Proof. destruct a; [done|]. by rewrite append_cons. Qed.

Lemma lastChar_append (a b : string) :
  b ≠ "" → lastChar (a +:+ b) = lastChar b.
Proof.
  intros Hb. induction a as [|x a IH]; [done|].
  rewrite append_cons. cbn [lastChar]. rewrite IH.
  destruct (a +:+ b) eqn:E; [|done].
  by apply append_empty_inv in E as [_ ?].
Qed.

Lemma endsWith_lastChar (s p : string) :
  p ≠ "" → endsWith s p → lastChar s = lastChar p.
Proof. intros Hp [before ->]. by apply lastChar_append. Qed.

Lemma startsWith_inv (c d : ascii) (s p : string) :
  startsWith (String c s) (String d p) → c = d ∧ startsWith s p.
Proof.
  intros [rest H]. rewrite append_cons in H. injection H as -> ->.
  split; [done|]. by exists rest.
Qed.

Lemma concat_snoc (sep : string) (l : list string) (x : string) :
  l ≠ [] → String.concat sep (l ++ [x]) = String.concat sep l +:+ sep +:+ x.
Proof.
  induction l as [|a l IH]; [done|]. intros _.
  destruct l as [|b l]; [done|].
  change (String.concat sep ((a :: b :: l) ++ [x]))
    with (a +:+ sep +:+ String.concat sep ((b :: l) ++ [x])).
  rewrite IH by done.
  change (String.concat sep (a :: b :: l))
    with (a +:+ sep +:+ String.concat sep (b :: l)).
  by rewrite !append_assoc.
Qed.

Lemma Array_join_snoc (parts : list value) (clause : string) :
  parts ≠ [] →
  Array_join (parts ++ [VString clause]) " " =
    Array_join parts " " +:+ " " +:+ clause.
Proof.
  intros Hparts. unfold Array_join.
  rewrite fmap_app. cbn [fmap list_fmap join_element ToString].
  rewrite concat_snoc; [done|]. by destruct parts.
Qed.

(** Closed membership questions are settled by evaluation. *)
Ltac by_evaluation := apply (bool_decide_unpack _); by vm_compute.

(** ** Lookups in the object-literal maps *)

Section Get.
Context (entries : list (string * string)).

Lemma Get_absent (key : string) :
  key ∉ entries.*1 → key ∉ Object_prototype_keys →
  Get (list_to_map entries) key = VUndefined.
Proof.
  intros Hown Hproto. unfold Get.
  rewrite (not_elem_of_list_to_map_1 entries key Hown).
  by rewrite bool_decide_eq_false_2.
Qed.

Lemma Get_inherited (key : string) :
  key ∉ entries.*1 → key ∈ Object_prototype_keys →
  Get (list_to_map entries) key = VInherited key.
Proof.
  intros Hown Hproto. unfold Get.
  rewrite (not_elem_of_list_to_map_1 entries key Hown).
  by rewrite bool_decide_eq_true_2.
Qed.

End Get.



(** ** Periods *)

Import shopifyqlHelpers Clauses.

(** Every supported period has a non-empty clause that starts with SINCE
    or DURING. *)
Lemma periodToShopifyQL_supported (period : string) :
  period ∈ supportedPeriods →
  ∃ clause, periodToShopifyQL period = VString clause ∧ clause ≠ "" ∧
            (startsWith clause "SINCE" ∨ startsWith clause "DURING").
Proof.
  unfold supportedPeriods. intros H.
  repeat (apply elem_of_cons in H as [->|H]).
  10: by apply elem_of_nil in H.
  all: eexists; (split; [vm_compute; reflexivity|]); (split; [done|]).
  all: first [left; by eexists | right; by eexists].
Qed.

(** A period that is neither supported nor the name of a property of
    [Object.prototype] gets the thirty-day clause. *)
Lemma periodToShopifyQL_fallback (period : string) :
  period ∉ supportedPeriods → period ∉ Object_prototype_keys →
  periodToShopifyQL period = VString "SINCE -30d".
Proof.
  intros Hown Hproto. unfold periodToShopifyQL, periodMap.
  by rewrite Get_absent.
Qed.

(** A period that names a property of [Object.prototype] gets that
    property, not a clause. *)
Lemma periodToShopifyQL_inherited (period : string) :
  period ∈ Object_prototype_keys →
  periodToShopifyQL period = VInherited period.
Proof.
  unfold Object_prototype_keys. intros Hproto.
  repeat (apply elem_of_cons in Hproto as [->|Hproto]; [by vm_compute|]).
  by apply elem_of_nil in Hproto.
Qed.


(** C2, evaluated where it fails: "constructor" is not a supported
    period, yet [periodToShopifyQL] does not answer "SINCE -30d" for it; it
    answers the [constructor] property that [periodMap] inherits, which
    is not even a string. *)
Theorem periodToShopifyQL_inherited_key :
  ("constructor" ∉ supportedPeriods) ∧
  periodToShopifyQL "constructor" = VInherited "constructor" ∧
  periodToShopifyQL "constructor" ≠ VString "SINCE -30d".
Proof.
  split; [by_evaluation|]. split; [by vm_compute|].
  vm_compute. discriminate.
Qed.

(** ** The query and its clauses *)

(** C1: the sales report example yields exactly the query of the
    specification; no WHERE clause is among its parts. *)
Theorem buildShopifyQLQuery_salesExample :
  buildShopifyQLQuery salesExample =
    "FROM sales SHOW total_sales, orders SINCE -7d GROUP BY day ORDER BY day LIMIT 50" ∧
  whereClause salesExample = [] ∧
  buildParts salesExample =
    [ VString "FROM sales"; VString "SHOW total_sales, orders";
      VString "SINCE -7d"; VString "GROUP BY day"; VString "ORDER BY day";
      VString "LIMIT 50" ].
Proof. split; [|split]; by vm_compute. Qed.


(** The array the builder fills is the list of clauses, in their order. *)
Lemma buildParts_clauses (o : Options) : buildParts o = clauses o.
Proof.
  unfold buildParts, clauses, whereClause, groupByClause, orderByClause,
    explicitOrderBy, defaultOrderBy, limitClause, fromClause, showClause,
    periodClause, push.
  destruct (where_ o) as [w|], (groupBy o) as [g|], (orderBy o) as [ob|],
    (limit o) as [[|z]|]; cbn;
    repeat match goal with
           | |- context [String.eqb ?s ""] => destruct (String.eqb s ""); cbn
           | |- context [Z.eqb ?z 0] => destruct (Z.eqb_spec z 0); cbn
           | |- context [decide (?z = 0%Z)] => destruct (decide (z = 0%Z)); cbn
           end; try done; try lia.
Qed.





(** ** The LIMIT clause *)

Lemma buildParts_withoutLimit (o : Options) :
  limitClause o = [] → buildParts o = buildParts (withoutLimit o).
Proof.
  intros H. rewrite !buildParts_clauses. unfold clauses. by rewrite H.
Qed.

(** C10, as stated, fails: NaN is a limit other than 0, and the query
    built for it has no LIMIT clause. *)
Lemma limit_NaN_no_clause :
  limit nanLimitExample = Some NaN ∧ NaN ≠ Num 0 ∧
  buildShopifyQLQuery nanLimitExample =
    "FROM sales SHOW total_sales SINCE -30d" ∧
  ¬ endsWith (buildShopifyQLQuery nanLimitExample)
      ("LIMIT " +:+ Number_toString NaN).
Proof.
  split; [done|]. split; [done|]. split; [by vm_compute|].
  intros H. apply endsWith_lastChar in H; [|done].
  vm_compute in H. discriminate.
Qed.

(** C10, amended: a limit that is omitted, 0 or NaN leaves the query
    as it is without a limit, with no LIMIT clause; for every other
    limit n the query ends with "LIMIT n". *)
Theorem limit_zero_or_NaN_is_absent (o : Options) :
  (limit o = None ∨ limit o = Some (Num 0) ∨ limit o = Some NaN →
   limitClause o = [] ∧
   buildShopifyQLQuery o = buildShopifyQLQuery (withoutLimit o)) ∧
  (∀ z : Z, limit o = Some (Num z) → z ≠ 0%Z →
   endsWith (buildShopifyQLQuery o) ("LIMIT " +:+ Number_toString (Num z))).
Proof.
  split.
  - intros H.
    assert (limitClause o = []) as Hnone.
    { unfold limitClause. by destruct H as [->|[->| ->]]. }
    split; [done|]. unfold buildShopifyQLQuery.
    by rewrite (buildParts_withoutLimit o Hnone).
  - intros z Hz Hne. unfold buildShopifyQLQuery.
    rewrite buildParts_clauses. unfold clauses, limitClause. rewrite Hz.
    destruct (decide (z = 0%Z)); [done|].
    rewrite !app_assoc.
    rewrite Array_join_snoc by (by destruct (whereClause o)).
    eexists. cbn [Number_toString]. by rewrite <- append_assoc.
Qed.

Lemma limit_zero_or_NaN_is_absent_witness :
  endsWith (buildShopifyQLQuery salesExample) "LIMIT 50" ∧
  buildShopifyQLQuery zeroLimitExample =
    buildShopifyQLQuery (withoutLimit zeroLimitExample).
Proof.
  split.
  - apply (proj2 (limit_zero_or_NaN_is_absent salesExample) 50%Z eq_refl).
    discriminate.
  - apply (proj1 (limit_zero_or_NaN_is_absent zeroLimitExample)).
    right. left. reflexivity.
Defined.

(** ** Groupings *)

(** C8, as stated, fails: the product grouping groups by
    [product_title] and orders by [total_sales], so the two clauses do
    not name one column. *)
Lemma product_grouping_orders_by_sales :
  groupByToShopifyQL "product" = VString "GROUP BY product_title" ∧
  groupByToOrderBy "product" = VString "ORDER BY total_sales DESC" ∧
  ¬ sameColumn "product".
Proof.
  split; [by vm_compute|]. split; [by vm_compute|].
  intros (col & Hgroup & Horder).
  vm_compute in Hgroup. injection Hgroup as <-.
  vm_compute in Horder. by destruct Horder.
Qed.

(** C8, amended: day, week and month are grouped and ordered by the
    column of that name; product, product_type, channel, region and
    customer_type are grouped by their column and ordered by
    "total_sales DESC"; a token that is none of these, and no name of a
    property of [Object.prototype], gets "GROUP BY day" and
    "ORDER BY day". *)
Theorem groupBy_clauses (token : string) :
  (token ∈ timeGroupings →
   groupByToShopifyQL token = VString ("GROUP BY " +:+ token) ∧
   groupByToOrderBy token = VString ("ORDER BY " +:+ token)) ∧
  (token ∈ salesGroupings →
   groupByToShopifyQL token = VString ("GROUP BY " +:+ column token) ∧
   groupByToOrderBy token = VString "ORDER BY total_sales DESC") ∧
  (token ∉ (timeGroupings ++ salesGroupings)%list →
   token ∉ Object_prototype_keys →
   groupByToShopifyQL token = VString "GROUP BY day" ∧
   groupByToOrderBy token = VString "ORDER BY day").
Proof.
  split; [|split].
  - unfold timeGroupings. intros H.
    repeat (apply elem_of_cons in H as [->|H]).
    4: by apply elem_of_nil in H.
    all: by vm_compute.
  - unfold salesGroupings. intros H.
    repeat (apply elem_of_cons in H as [->|H]).
    6: by apply elem_of_nil in H.
    all: by vm_compute.
  - intros Hown Hproto.
    unfold groupByToShopifyQL, groupByToOrderBy, groupByMap, orderByMap.
    by rewrite !Get_absent.
Qed.

Lemma groupBy_clauses_witness :
  (groupByToShopifyQL "week" = VString "GROUP BY week" ∧
   groupByToOrderBy "week" = VString "ORDER BY week") ∧
  (groupByToShopifyQL "channel" = VString "GROUP BY sales_channel" ∧
   groupByToOrderBy "channel" = VString "ORDER BY total_sales DESC") ∧
  (groupByToShopifyQL "hour" = VString "GROUP BY day" ∧
   groupByToOrderBy "hour" = VString "ORDER BY day").
Proof.
  split; [|split].
  - apply (proj1 (groupBy_clauses "week")).
    apply (bool_decide_unpack _). exact I.
  - apply (proj1 (proj2 (groupBy_clauses "channel"))).
    apply (bool_decide_unpack _). exact I.
  - apply (proj2 (proj2 (groupBy_clauses "hour")));
      apply (bool_decide_unpack _); exact I.
Defined.

(** ** The error policy of the tools *)

Import Policy.

Lemma try_catch_rethrow {A} (prefix : string) (body : outcome A) :
  reraised prefix body (try_catch body (rethrow prefix)).
Proof. split; by intros ? ->. Qed.

(** C5, as stated, fails: run-shopifyql-query and search-orders
    re-raise a rejected request behind prefixes that do not start with
    "Failed to fetch ". *)
Lemma prefix_is_not_always_fetch :
  runShopifyqlQuery.execute (Some (failing (Error "socket hang up")))
      {| runShopifyqlQuery.query := "FROM sales SHOW total_sales" |} =
    Throw (Error "Failed to execute ShopifyQL query: socket hang up") ∧
  ¬ startsWith "Failed to execute ShopifyQL query: socket hang up"
      "Failed to fetch " ∧
  searchOrders.execute (Some (failing (Error "socket hang up")))
      {| searchOrders.query := "tag:vip"; searchOrders.limit := Num 20;
         searchOrders.sortKey := "CREATED_AT"; searchOrders.reverse := true |} =
    Throw (Error "Failed to search orders: socket hang up") ∧
  ¬ startsWith "Failed to search orders: socket hang up" "Failed to fetch ".
Proof.
  split; [by vm_compute|]. split.
  - intros H. do 10 (apply startsWith_inv in H as [_ H]).
    by apply startsWith_inv in H as [? _].
  - split; [by vm_compute|].
    intros H. do 10 (apply startsWith_inv in H as [_ H]).
    by apply startsWith_inv in H as [? _].
Qed.

Ltac catches_all :=
  split; [intros; apply try_catch_rethrow | split; intros; reflexivity].

(** C5, amended: in every tool, whatever the [try] block of [execute]
    throws (a rejected request, parse errors, a [TypeError]) is re-raised
    as one error whose message is the tool's prefix followed by the
    message of the cause, and a result is returned only when the block
    returned it. The prefix is "Failed to fetch X: " for get-inventory-levels,
    get-sales-report, get-product-performance, get-customer-analytics,
    get-locations and get-collections, "Failed to execute ShopifyQL query: "
    for run-shopifyql-query and "Failed to search orders: " for
    search-orders. *)
Theorem execute_reraises_every_failure :
  catchesAll "Failed to fetch inventory levels: "
    getInventoryLevels.execute_try getInventoryLevels.execute ∧
  catchesAll "Failed to fetch sales report: "
    getSalesReport.execute_try getSalesReport.execute ∧
  catchesAll "Failed to fetch product performance: "
    getProductPerformance.execute_try getProductPerformance.execute ∧
  catchesAll "Failed to fetch customer analytics: "
    getCustomerAnalytics.execute_try getCustomerAnalytics.execute ∧
  catchesAll "Failed to fetch locations: "
    getLocations.execute_try getLocations.execute ∧
  catchesAll "Failed to fetch collections: "
    getCollections.execute_try getCollections.execute ∧
  catchesAll "Failed to execute ShopifyQL query: "
    runShopifyqlQuery.execute_try runShopifyqlQuery.execute ∧
  catchesAll "Failed to search orders: "
    searchOrders.execute_try searchOrders.execute.
Proof. repeat (split; [catches_all|]). catches_all. Qed.

(** ** Parse errors *)

Lemma hasParseErrors_nonempty (data : shopifyql.Data)
    (errors : list string) :
  shopifyql.parseErrors (shopifyql.shopifyqlQuery data) = Some errors →
  errors ≠ [] →
  shopifyql.hasParseErrors data = true ∧
  shopifyql.parseErrorsError data =
    Error ("ShopifyQL parse errors: " +:+ String.concat "; " errors).
Proof.
  intros Herrors Hne.
  unfold shopifyql.hasParseErrors, shopifyql.parseErrorsError.
  rewrite Herrors. split; [|done].
  apply bool_decide_eq_true_2. destruct errors; [done|cbn; lia].
Qed.

Lemma raisesParseErrors_intro {R} (prefix : string) (errors : list string) :
  raisesParseErrors (R := R) prefix errors
    (rethrow prefix
       (Error ("ShopifyQL parse errors: " +:+ String.concat "; " errors))).
Proof.
  eexists. split; [reflexivity|]. split; [reflexivity|].
  exists (prefix +:+ "ShopifyQL parse errors: "), "".
  by rewrite append_nil_r, append_assoc.
Qed.

(** Runs [execute] up to the answer of the client, which [Hresponse]
    gives, and the test for parse errors. *)
Ltac parse_errors Herrors Hne :=
  let Hresponse := fresh "Hresponse" in
  let Hhas := fresh "Hhas" in
  let Herror := fresh "Herror" in
  intros ? Hresponse;
  destruct (hasParseErrors_nonempty _ _ Herrors Hne) as [Hhas Herror];
  match goal with
  | |- raisesParseErrors _ _ (?execute _ _) =>
      unfold execute;
      match goal with
      | |- raisesParseErrors _ _ (try_catch (?execute_try _ _) _) =>
          unfold execute_try
      end
  end;
  unfold request; cbn; rewrite Hresponse; cbn; rewrite Hhas, Herror;
  apply raisesParseErrors_intro.

(** C4: when the response to the query of an analytics tool carries a
    non-empty [parseErrors], [execute] raises an error whose message holds
    the parse errors joined with "; " (behind the prefix of the tool and
    "ShopifyQL parse errors: "), and returns no result, whatever table
    the response holds. *)
Theorem parse_errors_raise
    (client : GraphQLClient shopifyql.Variables shopifyql.Data)
    (data : shopifyql.Data) (errors : list string) :
  shopifyql.parseErrors (shopifyql.shopifyqlQuery data) = Some errors →
  errors ≠ [] →
  (∀ input,
     client "RunShopifyQLQuery"
       {| shopifyql.query := runShopifyqlQuery.query input |} = Return data →
     raisesParseErrors "Failed to execute ShopifyQL query: " errors
       (runShopifyqlQuery.execute (Some client) input)) ∧
  (∀ input,
     client "GetSalesReport"
       {| shopifyql.query := getSalesReport.shopifyqlQuery input |} =
       Return data →
     raisesParseErrors "Failed to fetch sales report: " errors
       (getSalesReport.execute (Some client) input)) ∧
  (∀ input,
     client "GetProductPerformance"
       {| shopifyql.query := getProductPerformance.shopifyqlQuery input |} =
       Return data →
     raisesParseErrors "Failed to fetch product performance: " errors
       (getProductPerformance.execute (Some client) input)) ∧
  (∀ input,
     client "GetCustomerAnalytics"
       {| shopifyql.query := getCustomerAnalytics.shopifyqlQuery input |} =
       Return data →
     raisesParseErrors "Failed to fetch customer analytics: " errors
       (getCustomerAnalytics.execute (Some client) input)).
Proof.
  intros Herrors Hne.
  repeat (split; [parse_errors Herrors Hne|]). parse_errors Herrors Hne.
Qed.

Lemma parse_errors_raise_witness :
  runShopifyqlQuery.execute (Some (answering rejectedQuery))
      {| runShopifyqlQuery.query := "FROM sales SHOW x" |} =
    Throw (Error "Failed to execute ShopifyQL query: ShopifyQL parse errors: unknown column x; unexpected token") ∧
  raisesParseErrors "Failed to fetch sales report: "
    ["unknown column x"; "unexpected token"]
    (getSalesReport.execute (Some (answering rejectedQuery))
       {| getSalesReport.period := "last_7_days";
          getSalesReport.groupBy := "day";
          getSalesReport.metrics := ["x"];
          getSalesReport.limit := Num 50 |}).
Proof.
  split; [reflexivity|].
  apply (parse_errors_raise (answering rejectedQuery) rejectedQuery
           ["unknown column x"; "unexpected token"]);
    [reflexivity | discriminate | reflexivity].
Defined.

(** ** The inventory filter *)

(** C6, as stated, fails: with an empty SKU and a product id, both
    supplied, the filter is built from the product id. *)
Lemma empty_sku_filters_by_product :
  let input :=
    {| getInventoryLevels.limit := Num 20;
       getInventoryLevels.sku := Some "";
       getInventoryLevels.productId := Some "gid://shopify/Product/123" |} in
  getInventoryLevels.queryFilter input = Some "product_id:123" ∧
  getInventoryLevels.queryFilter input ≠ Some ("sku:" +:+ "").
Proof. cbv zeta. split; [by vm_compute|]. vm_compute. discriminate. Qed.

(** C6, amended: with a non-empty SKU and a product id, the filter is
    "sku:" followed by the SKU, and it is the same whatever the product
    id is, or without one. *)
Theorem sku_filter_wins (input : getInventoryLevels.Input) (s p : string) :
  getInventoryLevels.sku input = Some s → s ≠ "" →
  getInventoryLevels.productId input = Some p →
  getInventoryLevels.queryFilter input = Some ("sku:" +:+ s) ∧
  ∀ other : option string,
    getInventoryLevels.queryFilter
      {| getInventoryLevels.limit := getInventoryLevels.limit input;
         getInventoryLevels.sku := getInventoryLevels.sku input;
         getInventoryLevels.productId := other |} =
    getInventoryLevels.queryFilter input.
Proof.
  intros Hsku Hs _. unfold getInventoryLevels.queryFilter. cbn.
  rewrite Hsku. cbn. apply String.eqb_neq in Hs. by rewrite Hs.
Qed.

Lemma sku_filter_wins_witness :
  getInventoryLevels.queryFilter
    {| getInventoryLevels.limit := Num 20;
       getInventoryLevels.sku := Some "SKU-1";
       getInventoryLevels.productId := Some "gid://shopify/Product/123" |} =
    Some "sku:SKU-1".
Proof.
  apply (sku_filter_wins _ "SKU-1" "gid://shopify/Product/123");
    [reflexivity | discriminate | reflexivity].
Defined.

(** ** Inventory quantities *)

(** A name that no quantity of the list carries is no key of the map. *)
Lemma quantityMap_absent (quantities : list getInventoryLevels.Quantity)
    (key : string) :
  (∀ q, q ∈ quantities → getInventoryLevels.name q ≠ key) →
  getInventoryLevels.quantityMap quantities !! key = None.
Proof.
  unfold getInventoryLevels.quantityMap.
  assert (∀ m : gmap string Z,
            (∀ q, q ∈ quantities → getInventoryLevels.name q ≠ key) →
            foldl (λ quantityMap q,
                     Set_property (getInventoryLevels.name q)
                       (getInventoryLevels.quantity q) quantityMap)
                  m quantities !! key = m !! key) as Hfold.
  { induction quantities as [|q quantities IH]; intros m Hnames; [done|].
    cbn [foldl]. rewrite IH.
    - unfold Set_property.
      destruct (String.eqb (getInventoryLevels.name q) "__proto__"); [done|].
      apply lookup_insert_ne, Hnames, list_elem_of_here.
    - intros q' Hq'. apply Hnames. by apply list_elem_of_further. }
  intros Hnames. by rewrite Hfold.
Qed.

Lemma quantityOrZero_absent (quantities : list getInventoryLevels.Quantity)
    (key : string) :
  (∀ q, q ∈ quantities → getInventoryLevels.name q ≠ key) →
  getInventoryLevels.quantityOrZero
    (getInventoryLevels.quantityMap quantities) key = 0%Z.
Proof.
  intros H. unfold getInventoryLevels.quantityOrZero.
  by rewrite quantityMap_absent.
Qed.

(** The [reduce] of the source is the sum of the list. *)
Lemma foldl_sum {A} (f : A → Z) (l : list A) (start : Z) :
  foldl (λ sum x, sum + f x)%Z start l = (start + sumZ (f <$> l))%Z.
Proof.
  revert start. induction l as [|x l IH]; intros start; cbn.
  - lia.
  - rewrite IH. unfold sumZ. lia.
Qed.

Lemma formatItem_totals (item : getInventoryLevels.ItemNode) :
  let mapped := getInventoryLevels.formatItem item in
  getInventoryLevels.inventoryLevels mapped =
    (λ edge, getInventoryLevels.formatLevel (node edge))
      <$> edges (getInventoryLevels.item_inventoryLevels item) ∧
  getInventoryLevels.totalAvailable mapped =
    sumZ (getInventoryLevels.available
            <$> getInventoryLevels.inventoryLevels mapped) ∧
  getInventoryLevels.totalOnHand mapped =
    sumZ (getInventoryLevels.onHand
            <$> getInventoryLevels.inventoryLevels mapped).
Proof.
  cbv zeta. unfold getInventoryLevels.formatItem. cbn.
  split; [done|]. by rewrite !foldl_sum.
Qed.

(** A returned result is the mapping of the response to the one request
    that [execute] made. *)
Lemma getInventoryLevels_success
    (client : GraphQLClient getInventoryLevels.Variables getInventoryLevels.Data)
    (input : getInventoryLevels.Input) (r : getInventoryLevels.Result) :
  getInventoryLevels.execute (Some client) input = Return r →
  ∃ data,
    client "GetInventoryLevels"
      {| getInventoryLevels.first := getInventoryLevels.limit input;
         getInventoryLevels.query := getInventoryLevels.queryFilter input |} =
      Return data ∧
    getInventoryLevels.inventoryItems r =
      (λ edge, getInventoryLevels.formatItem (node edge))
        <$> edges (getInventoryLevels.data_inventoryItems data) ∧
    getInventoryLevels.itemCount r =
      length (getInventoryLevels.inventoryItems r).
Proof.
  unfold getInventoryLevels.execute, getInventoryLevels.execute_try, request.
  cbn. destruct (client _ _) as [data|e]; cbn; [|done].
  intros [= <-]. by exists data.
Qed.

(** C7: a level whose quantities lack the entry named "reserved" is
    mapped to a level with [reserved] 0, and so for each of the other
    named quantities; the mapped items of a result are the items of the
    response, each with its levels mapped, and for each of them
    [totalAvailable] is the sum of [available] over its mapped levels and
    [totalOnHand] the sum of [onHand]. *)
Theorem inventory_quantities_and_totals :
  (∀ level, lacks level "reserved" →
     getInventoryLevels.reserved (getInventoryLevels.formatLevel level) = 0%Z) ∧
  (∀ level,
     (lacks level "available" →
      getInventoryLevels.available (getInventoryLevels.formatLevel level) = 0%Z) ∧
     (lacks level "incoming" →
      getInventoryLevels.incoming (getInventoryLevels.formatLevel level) = 0%Z) ∧
     (lacks level "committed" →
      getInventoryLevels.committed (getInventoryLevels.formatLevel level) = 0%Z) ∧
     (lacks level "on_hand" →
      getInventoryLevels.onHand (getInventoryLevels.formatLevel level) = 0%Z)) ∧
  (∀ client input r,
     getInventoryLevels.execute (Some client) input = Return r →
     ∃ data,
       client "GetInventoryLevels"
         {| getInventoryLevels.first := getInventoryLevels.limit input;
            getInventoryLevels.query := getInventoryLevels.queryFilter input |} =
         Return data ∧
       getInventoryLevels.inventoryItems r =
         (λ edge, getInventoryLevels.formatItem (node edge))
           <$> edges (getInventoryLevels.data_inventoryItems data)) ∧
  (∀ item,
     getInventoryLevels.inventoryLevels (getInventoryLevels.formatItem item) =
       (λ edge, getInventoryLevels.formatLevel (node edge))
         <$> edges (getInventoryLevels.item_inventoryLevels item)) ∧
  (∀ client input r,
     getInventoryLevels.execute (Some client) input = Return r →
     ∀ item, item ∈ getInventoryLevels.inventoryItems r →
       getInventoryLevels.totalAvailable item =
         sumZ (getInventoryLevels.available
                 <$> getInventoryLevels.inventoryLevels item) ∧
       getInventoryLevels.totalOnHand item =
         sumZ (getInventoryLevels.onHand
                 <$> getInventoryLevels.inventoryLevels item)).
Proof.
  split; [|split; [|split; [|split]]].
  - intros level Hlacks. cbn. by apply quantityOrZero_absent.
  - intros level. repeat split; intros Hlacks; cbn;
      by apply quantityOrZero_absent.
  - intros client input r Hr.
    apply getInventoryLevels_success in Hr as (data & ? & ? & _). eauto.
  - intros item. apply formatItem_totals.
  - intros client input r Hr item Hitem.
    apply getInventoryLevels_success in Hr as (data & _ & Hitems & _).
    rewrite Hitems in Hitem.
    apply list_elem_of_fmap in Hitem as (edge & -> & _).
    apply formatItem_totals.
Qed.

Lemma inventory_quantities_and_totals_witness :
  ∃ r : getInventoryLevels.Result,
    getInventoryLevels.execute (Some (answering twoLocations))
      {| getInventoryLevels.limit := Num 20;
         getInventoryLevels.sku := None;
         getInventoryLevels.productId := None |} = Return r ∧
    (λ item, getInventoryLevels.reserved
               <$> getInventoryLevels.inventoryLevels item)
      <$> getInventoryLevels.inventoryItems r = [[2%Z; 0%Z]] ∧
    getInventoryLevels.totalAvailable
      <$> getInventoryLevels.inventoryItems r = [8%Z] ∧
    getInventoryLevels.totalOnHand
      <$> getInventoryLevels.inventoryItems r = [11%Z] ∧
    ∀ item, item ∈ getInventoryLevels.inventoryItems r →
      getInventoryLevels.totalAvailable item =
        sumZ (getInventoryLevels.available
                <$> getInventoryLevels.inventoryLevels item) ∧
      getInventoryLevels.totalOnHand item =
        sumZ (getInventoryLevels.onHand
                <$> getInventoryLevels.inventoryLevels item).
Proof.
  eexists. split; [reflexivity|].
  split; [by vm_compute|]. split; [by vm_compute|]. split; [by vm_compute|].
  intros item Hitem.
  destruct inventory_quantities_and_totals as (_ & _ & _ & _ & Htotals).
  apply (Htotals (answering twoLocations)
           {| getInventoryLevels.limit := Num 20;
              getInventoryLevels.sku := None;
              getInventoryLevels.productId := None |} _ eq_refl item Hitem).
Defined.

(** ** What the analytics results carry *)

(** C9, as stated, fails: run-shopifyql-query returns the same result
    for two different queries, so nothing in its result gives the query
    back. *)
Lemma runShopifyqlQuery_result_has_no_echo :
  runShopifyqlQuery.execute (Some (answering noTable))
      {| runShopifyqlQuery.query := "FROM sales SHOW total_sales" |} =
    Return {| runShopifyqlQuery.columns := []; runShopifyqlQuery.rows := [];
              runShopifyqlQuery.rowCount := 0 |} ∧
  runShopifyqlQuery.execute (Some (answering noTable))
      {| runShopifyqlQuery.query := "FROM orders SHOW orders" |} =
    Return {| runShopifyqlQuery.columns := []; runShopifyqlQuery.rows := [];
              runShopifyqlQuery.rowCount := 0 |} ∧
  ¬ echoesQuery runShopifyqlQuery.execute runShopifyqlQuery.query.
Proof.
  split; [reflexivity|]. split; [reflexivity|].
  intros [echo Hecho].
  pose proof (Hecho (answering noTable)
                {| runShopifyqlQuery.query := "FROM sales SHOW total_sales" |}
                _ eq_refl) as Hsales.
  pose proof (Hecho (answering noTable)
                {| runShopifyqlQuery.query := "FROM orders SHOW orders" |}
                _ eq_refl) as Horders.
  cbn in Hsales, Horders. rewrite Hsales in Horders. discriminate.
Qed.

(** Runs [execute] on the answer of [client] up to the result it
    returns. *)
Ltac run_execute client :=
  match goal with
  | |- ?execute _ _ = Return _ → _ =>
      unfold execute;
      match goal with
      | |- try_catch (?execute_try _ _) _ = Return _ → _ => unfold execute_try
      end
  end;
  unfold request; cbn;
  let Hresponse := fresh "Hresponse" in
  destruct (client _ _) as [data|e] eqn:Hresponse; cbn; [|done];
  destruct (shopifyql.hasParseErrors data) eqn:Herrors; cbn; [done|];
  destruct (shopifyql.tableData (shopifyql.shopifyqlQuery data))
    as [table|] eqn:Htable; cbn;
  intros [= <-]; cbn.

Section AnalyticsResults.
Context (client : GraphQLClient shopifyql.Variables shopifyql.Data).

(** A returned result is built from the input and from the table of the
    response to the one request, which had no parse errors. *)
Lemma getSalesReport_success input r :
  getSalesReport.execute (Some client) input = Return r →
  ∃ data,
    client "GetSalesReport"
      {| shopifyql.query := getSalesReport.shopifyqlQuery input |} =
      Return data ∧
    shopifyql.hasParseErrors data = false ∧
    r = {| getSalesReport.query := getSalesReport.shopifyqlQuery input;
           getSalesReport.result_period := getSalesReport.period input;
           getSalesReport.result_groupBy := getSalesReport.groupBy input;
           getSalesReport.columns :=
             default [] (shopifyql.columns <$> tableOf data);
           getSalesReport.rows :=
             default [] (shopifyql.rows <$> tableOf data);
           getSalesReport.rowCount :=
             length (default [] (shopifyql.rows <$> tableOf data)) |}.
Proof.
  run_execute client; exists data; unfold tableOf; by rewrite Htable.
Qed.

Lemma getProductPerformance_success input r :
  getProductPerformance.execute (Some client) input = Return r →
  ∃ data,
    client "GetProductPerformance"
      {| shopifyql.query := getProductPerformance.shopifyqlQuery input |} =
      Return data ∧
    shopifyql.hasParseErrors data = false ∧
    r = {| getProductPerformance.query :=
             getProductPerformance.shopifyqlQuery input;
           getProductPerformance.result_period :=
             getProductPerformance.period input;
           getProductPerformance.result_sortBy :=
             getProductPerformance.sortBy input;
           getProductPerformance.columns :=
             default [] (shopifyql.columns <$> tableOf data);
           getProductPerformance.products :=
             shopifyql.rowObject
               (default [] (shopifyql.columns <$> tableOf data))
               <$> default [] (shopifyql.rows <$> tableOf data);
           getProductPerformance.productCount :=
             length (default [] (shopifyql.rows <$> tableOf data)) |}.
Proof.
  run_execute client; exists data; unfold tableOf; rewrite Htable; cbn;
    by rewrite ?length_fmap.
Qed.

Lemma getCustomerAnalytics_success input r :
  getCustomerAnalytics.execute (Some client) input = Return r →
  ∃ data,
    client "GetCustomerAnalytics"
      {| shopifyql.query := getCustomerAnalytics.shopifyqlQuery input |} =
      Return data ∧
    shopifyql.hasParseErrors data = false ∧
    r = match tableOf data with
        | None =>
            getCustomerAnalytics.NoTable
              (getCustomerAnalytics.shopifyqlQuery input)
              (getCustomerAnalytics.period input)
              (getCustomerAnalytics.reportType input) [] [] 0
        | Some table =>
            getCustomerAnalytics.Table
              (getCustomerAnalytics.shopifyqlQuery input)
              (getCustomerAnalytics.period input)
              (getCustomerAnalytics.reportType input)
              (getCustomerAnalytics.groupBy input)
              (shopifyql.columns table)
              (shopifyql.rowObject (shopifyql.columns table)
                 <$> shopifyql.rows table)
              (length (shopifyql.rows table))
        end.
Proof.
  run_execute client; exists data; unfold tableOf; rewrite Htable; cbn;
    by rewrite ?length_fmap.
Qed.

Lemma runShopifyqlQuery_success input r :
  runShopifyqlQuery.execute (Some client) input = Return r →
  ∃ data,
    client "RunShopifyQLQuery"
      {| shopifyql.query := runShopifyqlQuery.query input |} = Return data ∧
    shopifyql.hasParseErrors data = false ∧
    r = {| runShopifyqlQuery.columns :=
             default [] (shopifyql.columns <$> tableOf data);
           runShopifyqlQuery.rows :=
             default [] (shopifyql.rows <$> tableOf data);
           runShopifyqlQuery.rowCount :=
             length (default [] (shopifyql.rows <$> tableOf data)) |}.
Proof.
  run_execute client; exists data; unfold tableOf; by rewrite Htable.
Qed.

End AnalyticsResults.

(** C9, amended: a result of get-sales-report, get-product-performance
    or get-customer-analytics is made of the ShopifyQL query that was built
    from the input and sent to the remote service, of parameters of the
    input (period and groupBy; period and sortBy; period and reportType,
    with groupBy when the response has a table), of the columns and the
    collection reshaped from the table of the response (the rows; one row
    object per row) and of the count of its rows, all empty and 0 without
    a table. A result of run-shopifyql-query is made of the columns, the
    rows and their count, taken from the response alone, with no echo of
    the query. *)
Theorem analytics_results_echo :
  echoesQuery getSalesReport.execute getSalesReport.shopifyqlQuery ∧
  echoesQuery getProductPerformance.execute
    getProductPerformance.shopifyqlQuery ∧
  echoesQuery getCustomerAnalytics.execute
    getCustomerAnalytics.shopifyqlQuery ∧
  (∀ client input r,
     getSalesReport.execute (Some client) input = Return r →
     ∃ data,
       client "GetSalesReport"
         {| shopifyql.query := getSalesReport.shopifyqlQuery input |} =
         Return data ∧
       r = {| getSalesReport.query := getSalesReport.shopifyqlQuery input;
              getSalesReport.result_period := getSalesReport.period input;
              getSalesReport.result_groupBy := getSalesReport.groupBy input;
              getSalesReport.columns :=
                default [] (shopifyql.columns <$> tableOf data);
              getSalesReport.rows :=
                default [] (shopifyql.rows <$> tableOf data);
              getSalesReport.rowCount :=
                length (default [] (shopifyql.rows <$> tableOf data)) |}) ∧
  (∀ client input r,
     getProductPerformance.execute (Some client) input = Return r →
     ∃ data,
       client "GetProductPerformance"
         {| shopifyql.query := getProductPerformance.shopifyqlQuery input |} =
         Return data ∧
       r = {| getProductPerformance.query :=
                getProductPerformance.shopifyqlQuery input;
              getProductPerformance.result_period :=
                getProductPerformance.period input;
              getProductPerformance.result_sortBy :=
                getProductPerformance.sortBy input;
              getProductPerformance.columns :=
                default [] (shopifyql.columns <$> tableOf data);
              getProductPerformance.products :=
                shopifyql.rowObject
                  (default [] (shopifyql.columns <$> tableOf data))
                  <$> default [] (shopifyql.rows <$> tableOf data);
              getProductPerformance.productCount :=
                length (default [] (shopifyql.rows <$> tableOf data)) |}) ∧
  (∀ client input r,
     getCustomerAnalytics.execute (Some client) input = Return r →
     ∃ data,
       client "GetCustomerAnalytics"
         {| shopifyql.query := getCustomerAnalytics.shopifyqlQuery input |} =
         Return data ∧
       r = match tableOf data with
           | None =>
               getCustomerAnalytics.NoTable
                 (getCustomerAnalytics.shopifyqlQuery input)
                 (getCustomerAnalytics.period input)
                 (getCustomerAnalytics.reportType input) [] [] 0
           | Some table =>
               getCustomerAnalytics.Table
                 (getCustomerAnalytics.shopifyqlQuery input)
                 (getCustomerAnalytics.period input)
                 (getCustomerAnalytics.reportType input)
                 (getCustomerAnalytics.groupBy input)
                 (shopifyql.columns table)
                 (shopifyql.rowObject (shopifyql.columns table)
                    <$> shopifyql.rows table)
                 (length (shopifyql.rows table))
           end) ∧
  (∀ client input r,
     runShopifyqlQuery.execute (Some client) input = Return r →
     ∃ data,
       client "RunShopifyQLQuery"
         {| shopifyql.query := runShopifyqlQuery.query input |} =
         Return data ∧
       r = {| runShopifyqlQuery.columns :=
                default [] (shopifyql.columns <$> tableOf data);
              runShopifyqlQuery.rows :=
                default [] (shopifyql.rows <$> tableOf data);
              runShopifyqlQuery.rowCount :=
                length (default [] (shopifyql.rows <$> tableOf data)) |}).
Proof.
  repeat apply conj.
  - exists getSalesReport.query. intros client input r H.
    by apply getSalesReport_success in H as (data & _ & _ & ->).
  - exists getProductPerformance.query. intros client input r H.
    by apply getProductPerformance_success in H as (data & _ & _ & ->).
  - exists getCustomerAnalytics.query. intros client input r H.
    apply getCustomerAnalytics_success in H as (data & _ & _ & ->).
    by destruct (tableOf data).
  - intros client input r H.
    apply getSalesReport_success in H as (data & ? & _ & ?). eauto.
  - intros client input r H.
    apply getProductPerformance_success in H as (data & ? & _ & ?). eauto.
  - intros client input r H.
    apply getCustomerAnalytics_success in H as (data & ? & _ & ?). eauto.
  - intros client input r H.
    apply runShopifyqlQuery_success in H as (data & ? & _ & ?). eauto.
Qed.

Lemma analytics_results_echo_witness :
  ∃ r : getSalesReport.Result,
    getSalesReport.execute (Some (answering Coverage.twoRows))
      Coverage.reportInput = Return r ∧
    getSalesReport.query r =
      "FROM sales SHOW total_sales, orders SINCE -7d GROUP BY day ORDER BY day LIMIT 50" ∧
    getSalesReport.result_period r = "last_7_days" ∧
    getSalesReport.result_groupBy r = "day" ∧
    getSalesReport.columns r =
      [Coverage.col "product_title"; Coverage.col "orders"] ∧
    getSalesReport.rows r = [["Mug"; "3"]; ["Cap"]] ∧
    getSalesReport.rowCount r = 2.
Proof.
  destruct analytics_results_echo as (_ & _ & _ & Hsales & _).
  destruct (Hsales (answering Coverage.twoRows) Coverage.reportInput _ eq_refl)
    as (data & [= <-] & Hr).
  eexists. split; [reflexivity|]. rewrite Hr. cbn.
  split; [by vm_compute|]. done.
Defined.

(** * Further properties *)

Import Coverage StringMethods.

(** ** Splitting a product id *)

Lemma split_nonempty (s : string) (c : ascii) : split s c ≠ [].
Proof.
  destruct s as [|a s]; [done|]. cbn.
  destruct (Ascii.eqb a c); [done|]. by destruct (split s c).
Qed.

(** Joining the segments with the separator gives the string back. *)
Lemma split_join (s : string) (c : ascii) :
  String.concat (String c "") (split s c) = s.
Proof.
  induction s as [|a s IH]; [done|]. cbn [split].
  destruct (Ascii.eqb_spec a c) as [->|Hne].
  - pose proof (split_nonempty s c) as Hsplit.
    destruct (split s c) as [|segment segments]; [done|].
    change (String.concat (String c "") ("" :: segment :: segments))
      with ("" +:+ String c "" +:+
            String.concat (String c "") (segment :: segments)).
    by rewrite IH.
  - pose proof (split_nonempty s c) as Hsplit.
    destruct (split s c) as [|segment segments]; [done|].
    rewrite <- IH. by destruct segments.
Qed.

(** No segment holds the separator. *)
Lemma split_segments (s : string) (c : ascii) :
  Forall (λ segment, includes segment c = false) (split s c).
Proof.
  induction s as [|a s IH]; [by repeat constructor|]. cbn [split].
  destruct (Ascii.eqb_spec a c) as [->|Hne].
  - by constructor.
  - pose proof (split_nonempty s c) as Hsplit.
    destruct (split s c) as [|segment segments]; [done|].
    inversion IH as [|? ? Hsegment Hsegments]; subst.
    constructor; [|done]. cbn.
    apply Ascii.eqb_neq in Hne. by rewrite Hne.
Qed.

(** The last segment is what follows the last separator. *)
Lemma split_last (s : string) (c : ascii) :
  ∃ n, pop (split s c) = Some n ∧ includes n c = false ∧
       (s = n ∨ ∃ before, s = before +:+ String c n).
Proof.
  pose proof (split_join s c) as Hjoin.
  pose proof (split_segments s c) as Hsegments.
  destruct (split s c) as [|segment segments] eqn:Hsplit using rev_ind.
  { by destruct (split_nonempty s c). }
  clear IHsegments. exists segment. unfold pop. rewrite last_snoc.
  split; [done|]. split.
  { apply Forall_app in Hsegments as [_ Hlast]. by inversion Hlast. }
  destruct segments as [|first rest].
  - left. by rewrite <- Hjoin.
  - right. rewrite concat_snoc in Hjoin by done.
    eexists. rewrite <- Hjoin. reflexivity.
Qed.

(** X1: when no SKU is given and a product id is, the filter is
    "product_id:" followed by the part of the product id after its last
    slash (the whole of it when it has no slash); that part has no slash
    in it. *)
Theorem product_filter_takes_last_segment
    (input : getInventoryLevels.Input) (p : string) :
  given (getInventoryLevels.sku input) = None →
  getInventoryLevels.productId input = Some p → p ≠ "" →
  ∃ n,
    getInventoryLevels.queryFilter input = Some ("product_id:" +:+ n) ∧
    includes n "/" = false ∧
    (p = n ∨ ∃ before, p = before +:+ "/" +:+ n).
Proof.
  intros Hsku Hp Hne. unfold getInventoryLevels.queryFilter.
  assert (ToBoolean (optional VString (getInventoryLevels.sku input)) = false)
    as ->.
  { destruct (getInventoryLevels.sku input) as [s|]; [|done]. cbn in *.
    by destruct (String.eqb s ""). }
  rewrite Hp. cbn [ToBoolean]. apply String.eqb_neq in Hne. rewrite Hne.
  cbn [negb]. destruct (includes p "/") eqn:Hslash.
  - destruct (split_last p "/") as (n & -> & Hn & Hsuffix).
    exists n. cbn. split; [done|]. split; [done|].
    destruct Hsuffix as [<-|[before ->]]; [by left|].
    right. exists before. done.
  - exists p. cbn. auto.
Qed.

Lemma product_filter_takes_last_segment_witness :
  ∃ n,
    getInventoryLevels.queryFilter
      {| getInventoryLevels.limit := Num 20;
         getInventoryLevels.sku := None;
         getInventoryLevels.productId := Some "gid://shopify/Product/123" |} =
      Some ("product_id:" +:+ n) ∧
    includes n "/" = false ∧
    ("gid://shopify/Product/123" = n ∨
     ∃ before, "gid://shopify/Product/123" = before +:+ "/" +:+ n).
Proof.
  apply (product_filter_takes_last_segment _ "gid://shopify/Product/123");
    [reflexivity | reflexivity | discriminate].
Defined.

(** X2: no filter is sent exactly when neither a non-empty SKU nor a
    non-empty product id is given. *)
Theorem no_filter_iff_nothing_given (input : getInventoryLevels.Input) :
  getInventoryLevels.queryFilter input = None ↔
  given (getInventoryLevels.sku input) = None ∧
  given (getInventoryLevels.productId input) = None.
Proof.
  unfold getInventoryLevels.queryFilter.
  destruct (getInventoryLevels.sku input) as [s|],
    (getInventoryLevels.productId input) as [p|]; cbn;
    repeat match goal with
           | |- context [String.eqb ?s ""] => destruct (String.eqb s ""); cbn
           | |- context [includes ?p ?c] => destruct (includes p c); cbn
           end; (split; [try done | intros [? ?]; try done]).
Qed.

(** ** Quantities *)

Lemma quantityMap_snoc (quantities : list getInventoryLevels.Quantity)
    (q : getInventoryLevels.Quantity) :
  getInventoryLevels.quantityMap (quantities ++ [q]) =
    Set_property (getInventoryLevels.name q) (getInventoryLevels.quantity q)
      (getInventoryLevels.quantityMap quantities).
Proof. unfold getInventoryLevels.quantityMap. by rewrite foldl_snoc. Qed.

(** A key other than [__proto__] maps to the quantity of the last entry
    that carries it. *)
Lemma quantityMap_lookup (quantities : list getInventoryLevels.Quantity)
    (key : string) :
  key ≠ "__proto__" →
  getInventoryLevels.quantityMap quantities !! key =
    lastQuantity quantities key.
Proof.
  intros Hkey. unfold lastQuantity.
  induction quantities as [|q quantities IH] using rev_ind; [done|].
  rewrite quantityMap_snoc, filter_app. unfold Set_property.
  destruct (String.eqb_spec (getInventoryLevels.name q) "__proto__")
    as [Hproto|Hproto].
  - rewrite filter_cons_False, filter_nil, app_nil_r by congruence. done.
  - destruct (decide (getInventoryLevels.name q = key)) as [<-|Hother].
    + rewrite lookup_insert_eq, filter_cons_True, filter_nil by done.
      by rewrite last_snoc.
    + rewrite lookup_insert_ne by done.
      rewrite filter_cons_False, filter_nil, app_nil_r by done. done.
Qed.

(** X3: each quantity of a mapped level is the quantity of the last
    entry of the response that carries its name, and 0 when there is
    none: a later entry overrides an earlier one of the same name. *)
Theorem formatLevel_takes_last_quantity (level : getInventoryLevels.LevelNode) :
  let mapped := getInventoryLevels.formatLevel level in
  let named := lastQuantity (getInventoryLevels.quantities level) in
  getInventoryLevels.available mapped = default 0%Z (named "available") ∧
  getInventoryLevels.incoming mapped = default 0%Z (named "incoming") ∧
  getInventoryLevels.committed mapped = default 0%Z (named "committed") ∧
  getInventoryLevels.reserved mapped = default 0%Z (named "reserved") ∧
  getInventoryLevels.onHand mapped = default 0%Z (named "on_hand") ∧
  getInventoryLevels.locationId mapped =
    getInventoryLevels.location_id (getInventoryLevels.location level) ∧
  getInventoryLevels.locationName mapped =
    getInventoryLevels.location_name (getInventoryLevels.location level).
Proof.
  cbv zeta. unfold getInventoryLevels.formatLevel. cbn.
  unfold getInventoryLevels.quantityOrZero.
  rewrite !quantityMap_lookup by done.
  repeat split;
    match goal with
    | |- context [lastQuantity ?qs ?k] =>
        destruct (lastQuantity qs k) as [z|]; [|done];
        cbn; by destruct (Z.eqb_spec z 0)
    end.
Qed.

(** ** One request per call *)

(** X4: the outcome of [execute] depends on the client only through its
    answer to one request, made with the operation of the tool and the
    variables built from the input: two clients that agree on that
    request give the same outcome. *)
Theorem execute_makes_one_request :
  (∀ client client' input,
     client "GetInventoryLevels"
       {| getInventoryLevels.first := getInventoryLevels.limit input;
          getInventoryLevels.query := getInventoryLevels.queryFilter input |} =
     client' "GetInventoryLevels"
       {| getInventoryLevels.first := getInventoryLevels.limit input;
          getInventoryLevels.query := getInventoryLevels.queryFilter input |} →
     getInventoryLevels.execute (Some client) input =
     getInventoryLevels.execute (Some client') input) ∧
  (∀ client client' input,
     client "GetLocations"
       {| getLocations.first := getLocations.limit input;
          getLocations.variables_includeInactive :=
            getLocations.includeInactive input |} =
     client' "GetLocations"
       {| getLocations.first := getLocations.limit input;
          getLocations.variables_includeInactive :=
            getLocations.includeInactive input |} →
     getLocations.execute (Some client) input =
     getLocations.execute (Some client') input) ∧
  (∀ client client' input,
     client "GetCollections"
       {| getCollections.first := getCollections.limit input;
          getCollections.query := getCollections.queryFilter input |} =
     client' "GetCollections"
       {| getCollections.first := getCollections.limit input;
          getCollections.query := getCollections.queryFilter input |} →
     getCollections.execute (Some client) input =
     getCollections.execute (Some client') input) ∧
  (∀ client client' input,
     client "SearchOrders"
       {| searchOrders.first := searchOrders.limit input;
          searchOrders.variables_query := searchOrders.query input;
          searchOrders.variables_sortKey := searchOrders.sortKey input;
          searchOrders.variables_reverse := searchOrders.reverse input |} =
     client' "SearchOrders"
       {| searchOrders.first := searchOrders.limit input;
          searchOrders.variables_query := searchOrders.query input;
          searchOrders.variables_sortKey := searchOrders.sortKey input;
          searchOrders.variables_reverse := searchOrders.reverse input |} →
     searchOrders.execute (Some client) input =
     searchOrders.execute (Some client') input) ∧
  (∀ client client' input,
     client "RunShopifyQLQuery"
       {| shopifyql.query := runShopifyqlQuery.query input |} =
     client' "RunShopifyQLQuery"
       {| shopifyql.query := runShopifyqlQuery.query input |} →
     runShopifyqlQuery.execute (Some client) input =
     runShopifyqlQuery.execute (Some client') input) ∧
  (∀ client client' input,
     client "GetSalesReport"
       {| shopifyql.query := getSalesReport.shopifyqlQuery input |} =
     client' "GetSalesReport"
       {| shopifyql.query := getSalesReport.shopifyqlQuery input |} →
     getSalesReport.execute (Some client) input =
     getSalesReport.execute (Some client') input) ∧
  (∀ client client' input,
     client "GetProductPerformance"
       {| shopifyql.query := getProductPerformance.shopifyqlQuery input |} =
     client' "GetProductPerformance"
       {| shopifyql.query := getProductPerformance.shopifyqlQuery input |} →
     getProductPerformance.execute (Some client) input =
     getProductPerformance.execute (Some client') input) ∧
  (∀ client client' input,
     client "GetCustomerAnalytics"
       {| shopifyql.query := getCustomerAnalytics.shopifyqlQuery input |} =
     client' "GetCustomerAnalytics"
       {| shopifyql.query := getCustomerAnalytics.shopifyqlQuery input |} →
     getCustomerAnalytics.execute (Some client) input =
     getCustomerAnalytics.execute (Some client') input).
Proof.
  repeat apply conj; intros client client' input Hsame.
  - unfold getInventoryLevels.execute, getInventoryLevels.execute_try, request.
    cbn. by rewrite Hsame.
  - unfold getLocations.execute, getLocations.execute_try, request.
    cbn. by rewrite Hsame.
  - unfold getCollections.execute, getCollections.execute_try, request.
    cbn. by rewrite Hsame.
  - unfold searchOrders.execute, searchOrders.execute_try, request.
    cbn. by rewrite Hsame.
  - unfold runShopifyqlQuery.execute, runShopifyqlQuery.execute_try, request.
    cbn. by rewrite Hsame.
  - unfold getSalesReport.execute, getSalesReport.execute_try, request.
    cbn. by rewrite Hsame.
  - unfold getProductPerformance.execute, getProductPerformance.execute_try,
      request. cbn. by rewrite Hsame.
  - unfold getCustomerAnalytics.execute, getCustomerAnalytics.execute_try,
      request. cbn. by rewrite Hsame.
Qed.

(** ** The list tools *)

Lemma formatLocation_id (loc : getLocations.Location) :
  getLocations.formatLocation loc = loc.
Proof. by destruct loc as [? ? ? ? ? ? []]. Qed.

(** X5: when the request resolves, each of the four list tools returns
    one mapped item per edge of the response, in the order of the edges,
    and a count that is the number of edges; so a response without edges
    gives an empty collection and the count 0, not an error. *)
Theorem list_tools_map_every_edge :
  (∀ client input data,
     client "GetInventoryLevels"
       {| getInventoryLevels.first := getInventoryLevels.limit input;
          getInventoryLevels.query := getInventoryLevels.queryFilter input |} =
       Return data →
     ∃ r, getInventoryLevels.execute (Some client) input = Return r ∧
          getInventoryLevels.inventoryItem_id
            <$> getInventoryLevels.inventoryItems r =
          (λ edge, getInventoryLevels.item_id (node edge))
            <$> edges (getInventoryLevels.data_inventoryItems data) ∧
          getInventoryLevels.itemCount r =
            length (edges (getInventoryLevels.data_inventoryItems data))) ∧
  (∀ client input data,
     client "GetLocations"
       {| getLocations.first := getLocations.limit input;
          getLocations.variables_includeInactive :=
            getLocations.includeInactive input |} = Return data →
     ∃ r, getLocations.execute (Some client) input = Return r ∧
          getLocations.id <$> getLocations.locations r =
          (λ edge, getLocations.id (node edge))
            <$> edges (getLocations.data_locations data) ∧
          getLocations.locationCount r =
            length (edges (getLocations.data_locations data))) ∧
  (∀ client input data,
     client "GetCollections"
       {| getCollections.first := getCollections.limit input;
          getCollections.query := getCollections.queryFilter input |} =
       Return data →
     ∃ r, getCollections.execute (Some client) input = Return r ∧
          getCollections.id <$> getCollections.collections r =
          (λ edge, getCollections.node_id (node edge))
            <$> edges (getCollections.data_collections data) ∧
          getCollections.collectionCount r =
            length (edges (getCollections.data_collections data))) ∧
  (∀ client input data,
     client "SearchOrders"
       {| searchOrders.first := searchOrders.limit input;
          searchOrders.variables_query := searchOrders.query input;
          searchOrders.variables_sortKey := searchOrders.sortKey input;
          searchOrders.variables_reverse := searchOrders.reverse input |} =
       Return data →
     ∃ r, searchOrders.execute (Some client) input = Return r ∧
          searchOrders.id <$> searchOrders.orders r =
          (λ edge, searchOrders.node_id (node edge))
            <$> edges (searchOrders.data_orders data) ∧
          searchOrders.orderCount r =
            length (edges (searchOrders.data_orders data))).
Proof.
  repeat apply conj; intros client input data Hdata.
  - unfold getInventoryLevels.execute, getInventoryLevels.execute_try, request.
    cbn. rewrite Hdata. eexists. split; [reflexivity|]. cbn.
    rewrite length_fmap, <- list_fmap_compose. done.
  - unfold getLocations.execute, getLocations.execute_try, request.
    cbn. rewrite Hdata. eexists. split; [reflexivity|]. cbn.
    rewrite length_fmap, <- list_fmap_compose. done.
  - unfold getCollections.execute, getCollections.execute_try, request.
    cbn. rewrite Hdata. eexists. split; [reflexivity|]. cbn.
    rewrite length_fmap, <- list_fmap_compose. done.
  - unfold searchOrders.execute, searchOrders.execute_try, request.
    cbn. rewrite Hdata. eexists. split; [reflexivity|]. cbn.
    rewrite length_fmap, <- list_fmap_compose. done.
Qed.

Lemma list_tools_map_every_edge_witness :
  ∃ r,
    getLocations.execute
      (Some (answering {| getLocations.data_locations := {| edges := [] |} |}))
      {| getLocations.limit := Num 20;
         getLocations.includeInactive := false |} = Return r ∧
    getLocations.id <$> getLocations.locations r = [] ∧
    getLocations.locationCount r = 0.
Proof.
  destruct list_tools_map_every_edge as (_ & Hlocations & _).
  apply (Hlocations
           (answering {| getLocations.data_locations := {| edges := [] |} |})
           {| getLocations.limit := Num 20;
              getLocations.includeInactive := false |}
           _ eq_refl).
Defined.

(** X6: get-locations hands the location nodes of the response on
    unchanged. *)
Theorem locations_returned_unchanged
    (client : GraphQLClient getLocations.Variables getLocations.Data)
    (input : getLocations.Input) (r : getLocations.Result) :
  getLocations.execute (Some client) input = Return r →
  ∃ data,
    client "GetLocations"
      {| getLocations.first := getLocations.limit input;
         getLocations.variables_includeInactive :=
           getLocations.includeInactive input |} = Return data ∧
    getLocations.locations r = node <$> edges (getLocations.data_locations data).
Proof.
  unfold getLocations.execute, getLocations.execute_try, request. cbn.
  destruct (client _ _) as [data|e]; cbn; [|done]. intros [= <-].
  exists data. split; [done|]. cbn.
  apply list_fmap_ext. intros i edge _. apply formatLocation_id.
Qed.

Lemma locations_returned_unchanged_witness :
  ∃ data : getLocations.Data,
    answering twoShops "GetLocations"
      {| getLocations.first := Num 20;
         getLocations.variables_includeInactive := false |} = Return data ∧
    [ shop "gid://shopify/Location/1" "Warehouse" (Some "Lyon");
      shop "gid://shopify/Location/2" "Store" None ] =
      node <$> edges (getLocations.data_locations data).
Proof.
  apply (locations_returned_unchanged (answering twoShops)
           {| getLocations.limit := Num 20;
              getLocations.includeInactive := false |}
           {| getLocations.locations :=
                [ shop "gid://shopify/Location/1" "Warehouse" (Some "Lyon");
                  shop "gid://shopify/Location/2" "Store" None ];
              getLocations.locationCount := 2 |} eq_refl).
Defined.

(** X7: a result of search-orders gives back the query, the sort key and
    the direction of the input as they were given, and these are the
    variables of the request it made. *)
Theorem searchOrders_echoes_input
    (client : GraphQLClient searchOrders.Variables searchOrders.Data)
    (input : searchOrders.Input) (r : searchOrders.Result) :
  searchOrders.execute (Some client) input = Return r →
  searchOrders.result_query r = searchOrders.query input ∧
  searchOrders.result_sortKey r = searchOrders.sortKey input ∧
  searchOrders.result_reverse r = searchOrders.reverse input ∧
  ∃ data,
    client "SearchOrders"
      {| searchOrders.first := searchOrders.limit input;
         searchOrders.variables_query := searchOrders.result_query r;
         searchOrders.variables_sortKey := searchOrders.result_sortKey r;
         searchOrders.variables_reverse := searchOrders.result_reverse r |} =
      Return data.
Proof.
  unfold searchOrders.execute, searchOrders.execute_try, request. cbn.
  destruct (client _ _) as [data|e] eqn:Hdata; cbn; [|done].
  intros [= <-]. cbn. eauto 10.
Qed.

Lemma searchOrders_echoes_input_witness :
  ∃ data : searchOrders.Data,
    answering {| searchOrders.data_orders := {| edges := [] |} |}
      "SearchOrders"
      {| searchOrders.first := Num 20;
         searchOrders.variables_query := "tag:vip";
         searchOrders.variables_sortKey := "CREATED_AT";
         searchOrders.variables_reverse := true |} = Return data.
Proof.
  apply (searchOrders_echoes_input
           (answering {| searchOrders.data_orders := {| edges := [] |} |})
           {| searchOrders.query := "tag:vip"; searchOrders.limit := Num 20;
              searchOrders.sortKey := "CREATED_AT";
              searchOrders.reverse := true |}
           {| searchOrders.result_query := "tag:vip";
              searchOrders.result_sortKey := "CREATED_AT";
              searchOrders.result_reverse := true;
              searchOrders.orders := []; searchOrders.orderCount := 0 |}
           eq_refl).
Defined.

(** ** The analytics tools *)

Lemma hasParseErrors_false (data : shopifyql.Data) :
  shopifyql.hasParseErrors data = false ↔
  shopifyql.parseErrors (shopifyql.shopifyqlQuery data) = None ∨
  shopifyql.parseErrors (shopifyql.shopifyqlQuery data) = Some [].
Proof.
  unfold shopifyql.hasParseErrors.
  destruct (shopifyql.parseErrors _) as [[|e errors]|]; cbn.
  - rewrite bool_decide_eq_false. split; [auto|lia].
  - rewrite bool_decide_eq_false. split; [lia|by intros [|]].
  - split; auto.
Qed.

(** Runs [execute] on the answer of [client]. *)
Ltac answer_of client :=
  match goal with
  | |- context [?execute (Some client) _] =>
      unfold execute;
      match goal with
      | |- context [try_catch (?execute_try _ _) _] => unfold execute_try
      end
  end;
  unfold request; cbn;
  destruct (client _ _) as [data|e]; cbn;
  [ destruct (shopifyql.hasParseErrors data) eqn:Herrors; cbn;
    [ | destruct (shopifyql.tableData (shopifyql.shopifyqlQuery data));
        cbn ]
  | ].

Ltac returns_iff client :=
  answer_of client;
  (split;
   [ intros [r Hr]; try discriminate;
     eexists; (split; [reflexivity|]); by apply hasParseErrors_false
   | intros (data' & Hdata & Hnone); try discriminate;
     injection Hdata as <-; apply hasParseErrors_false in Hnone;
     try congruence; eauto ]).

(** X8: an analytics tool returns a result exactly when its request
    resolves with a response whose [parseErrors] is absent or empty; a
    missing table is no error. *)
Theorem analytics_return_iff_no_parse_errors
    (client : GraphQLClient shopifyql.Variables shopifyql.Data) :
  (∀ input,
     (∃ r, runShopifyqlQuery.execute (Some client) input = Return r) ↔
     ∃ data,
       client "RunShopifyQLQuery"
         {| shopifyql.query := runShopifyqlQuery.query input |} = Return data ∧
       (shopifyql.parseErrors (shopifyql.shopifyqlQuery data) = None ∨
        shopifyql.parseErrors (shopifyql.shopifyqlQuery data) = Some [])) ∧
  (∀ input,
     (∃ r, getSalesReport.execute (Some client) input = Return r) ↔
     ∃ data,
       client "GetSalesReport"
         {| shopifyql.query := getSalesReport.shopifyqlQuery input |} =
         Return data ∧
       (shopifyql.parseErrors (shopifyql.shopifyqlQuery data) = None ∨
        shopifyql.parseErrors (shopifyql.shopifyqlQuery data) = Some [])) ∧
  (∀ input,
     (∃ r, getProductPerformance.execute (Some client) input = Return r) ↔
     ∃ data,
       client "GetProductPerformance"
         {| shopifyql.query := getProductPerformance.shopifyqlQuery input |} =
         Return data ∧
       (shopifyql.parseErrors (shopifyql.shopifyqlQuery data) = None ∨
        shopifyql.parseErrors (shopifyql.shopifyqlQuery data) = Some [])) ∧
  (∀ input,
     (∃ r, getCustomerAnalytics.execute (Some client) input = Return r) ↔
     ∃ data,
       client "GetCustomerAnalytics"
         {| shopifyql.query := getCustomerAnalytics.shopifyqlQuery input |} =
         Return data ∧
       (shopifyql.parseErrors (shopifyql.shopifyqlQuery data) = None ∨
        shopifyql.parseErrors (shopifyql.shopifyqlQuery data) = Some [])).
Proof.
  repeat apply conj; intros input; returns_iff client.
Qed.

(** ** Row objects *)

Lemma rowObject_snoc (cols : list shopifyql.Column) (c : shopifyql.Column)
    (row : list string) :
  shopifyql.rowObject (cols ++ [c]) row =
    Set_property (shopifyql.name c) (row !! length cols)
      (shopifyql.rowObject cols row).
Proof.
  unfold shopifyql.rowObject. rewrite imap_app, foldl_app. cbn.
  by rewrite Nat.add_0_r.
Qed.

Lemma rowObject_keys (cols : list shopifyql.Column) (row : list string)
    (key : string) :
  is_Some (shopifyql.rowObject cols row !! key) ↔
  key ≠ "__proto__" ∧ key ∈ shopifyql.name <$> cols.
Proof.
  induction cols as [|c cols IH] using rev_ind.
  - unfold shopifyql.rowObject. cbn. rewrite lookup_empty.
    split; [by intros [? ?]|]. intros [_ H]. by apply elem_of_nil in H.
  - rewrite rowObject_snoc, fmap_app, elem_of_app. cbn. unfold Set_property.
    rewrite list_elem_of_singleton.
    destruct (String.eqb_spec (shopifyql.name c) "__proto__") as [Hproto|Hproto].
    + rewrite IH. split; [tauto|]. intros [Hkey [H|H]]; [done|congruence].
    + destruct (decide (shopifyql.name c = key)) as [<-|Hother].
      * rewrite lookup_insert_eq. split; [auto|by eexists].
      * rewrite lookup_insert_ne by done. rewrite IH.
        split; [tauto|]. intros [Hkey [H|H]]; [done|congruence].
Qed.

(** X10: under the name of a column, a row object holds the cell of the
    row at the position of the last column of that name, [undefined] when
    the row is too short. *)
Theorem rowObject_cell (cols : list shopifyql.Column) (row : list string)
    (i : nat) (c : shopifyql.Column) :
  cols !! i = Some c →
  shopifyql.name c ≠ "__proto__" →
  (∀ j c', i < j → cols !! j = Some c' →
           shopifyql.name c' ≠ shopifyql.name c) →
  shopifyql.rowObject cols row !! shopifyql.name c = Some (row !! i).
Proof.
  intros Hi Hproto. induction cols as [|c0 cols IH] using rev_ind; [done|].
  intros Hlast. rewrite rowObject_snoc. unfold Set_property.
  destruct (decide (i = length cols)) as [->|Hne].
  - rewrite lookup_app_r, Nat.sub_diag in Hi by lia. injection Hi as ->.
    apply String.eqb_neq in Hproto. rewrite Hproto.
    by rewrite lookup_insert_eq.
  - assert (i < length cols) as Hlt.
    { apply lookup_lt_Some in Hi. rewrite length_app in Hi. cbn in Hi. lia. }
    rewrite lookup_app_l in Hi by done.
    assert (shopifyql.name c0 ≠ shopifyql.name c) as Hother.
    { apply (Hlast (length cols)); [done|].
      by rewrite lookup_app_r, Nat.sub_diag by lia. }
    destruct (String.eqb (shopifyql.name c0) "__proto__").
    + apply IH; [done|]. intros j c' Hj Hc'. apply (Hlast j c' Hj).
      apply lookup_app_l_Some. done.
    + rewrite lookup_insert_ne by done.
      apply IH; [done|]. intros j c' Hj Hc'. apply (Hlast j c' Hj).
      apply lookup_app_l_Some. done.
Qed.

Lemma rowObject_cell_witness :
  shopifyql.rowObject [col "product_title"; col "orders"] ["Cap"]
    !! "orders" = Some None ∧
  shopifyql.rowObject [col "product_title"; col "orders"] ["Cap"]
    !! "product_title" = Some (Some "Cap").
Proof.
  split.
  - apply (rowObject_cell [col "product_title"; col "orders"] ["Cap"] 1
             (col "orders") eq_refl); [discriminate|].
    intros j c' Hj Hc'. destruct j as [|[|j]]; [lia|lia|discriminate].
  - apply (rowObject_cell [col "product_title"; col "orders"] ["Cap"] 0
             (col "product_title") eq_refl); [discriminate|].
    intros j c' Hj Hc'. destruct j as [|[|j]]; [lia| |discriminate].
    injection Hc' as <-. discriminate.
Defined.

(** X9: when the response has a table and no parse errors,
    get-product-performance returns as many product objects as the table
    has rows, with that number as the count, and get-customer-analytics as
    many result objects; the keys of each object are the names of the
    columns of the table, but for a column named [__proto__]. Without a
    table both return no object at all. *)
Theorem row_objects_have_column_names
    (client : GraphQLClient shopifyql.Variables shopifyql.Data)
    (data : shopifyql.Data) :
  shopifyql.hasParseErrors data = false →
  (∀ input,
     client "GetProductPerformance"
       {| shopifyql.query := getProductPerformance.shopifyqlQuery input |} =
       Return data →
     ∃ r,
       getProductPerformance.execute (Some client) input = Return r ∧
       length (getProductPerformance.products r) =
         length (default [] (shopifyql.rows <$> tableOf data)) ∧
       getProductPerformance.productCount r =
         length (getProductPerformance.products r) ∧
       ∀ product key,
         product ∈ getProductPerformance.products r →
         is_Some (product !! key) ↔
         key ≠ "__proto__" ∧
         key ∈ shopifyql.name
                 <$> default [] (shopifyql.columns <$> tableOf data)) ∧
  (∀ input table,
     client "GetCustomerAnalytics"
       {| shopifyql.query := getCustomerAnalytics.shopifyqlQuery input |} =
       Return data →
     tableOf data = Some table →
     ∃ query period reportType groupBy results,
       getCustomerAnalytics.execute (Some client) input =
         Return (getCustomerAnalytics.Table query period reportType groupBy
                   (shopifyql.columns table) results
                   (length (shopifyql.rows table))) ∧
       length results = length (shopifyql.rows table) ∧
       ∀ result key,
         result ∈ results →
         is_Some (result !! key) ↔
         key ≠ "__proto__" ∧
         key ∈ shopifyql.name <$> shopifyql.columns table) ∧
  (∀ input,
     client "GetCustomerAnalytics"
       {| shopifyql.query := getCustomerAnalytics.shopifyqlQuery input |} =
       Return data →
     tableOf data = None →
     ∃ query period reportType,
       getCustomerAnalytics.execute (Some client) input =
         Return (getCustomerAnalytics.NoTable query period reportType
                   [] [] 0)).
Proof.
  intros Herrors. unfold tableOf. split; [|split].
  - intros input Hdata.
    unfold getProductPerformance.execute, getProductPerformance.execute_try,
      request. cbn. rewrite Hdata. cbn. rewrite Herrors.
    destruct (shopifyql.tableData (shopifyql.shopifyqlQuery data))
      as [table|]; cbn.
    + eexists. split; [reflexivity|]. cbn. rewrite !length_fmap.
      split; [done|]. split; [done|].
      intros product key Hproduct.
      apply list_elem_of_fmap in Hproduct as (row & -> & _).
      apply rowObject_keys.
    + eexists. split; [reflexivity|]. cbn. split; [done|]. split; [done|].
      intros product key Hproduct. by apply elem_of_nil in Hproduct.
  - intros input table Hdata Htable.
    unfold getCustomerAnalytics.execute, getCustomerAnalytics.execute_try,
      request. cbn. rewrite Hdata. cbn. rewrite Herrors, Htable. cbn.
    do 5 eexists. rewrite length_fmap. split; [reflexivity|].
    rewrite length_fmap. split; [done|].
    intros result key Hresult.
    apply list_elem_of_fmap in Hresult as (row & -> & _).
    apply rowObject_keys.
  - intros input Hdata Htable.
    unfold getCustomerAnalytics.execute, getCustomerAnalytics.execute_try,
      request. cbn. rewrite Hdata. cbn. rewrite Herrors, Htable. cbn.
    by do 3 eexists.
Qed.

Lemma row_objects_have_column_names_witness :
  ∃ r,
    getProductPerformance.execute (Some (answering twoRows)) mugsInput =
      Return r ∧
    length (getProductPerformance.products r) = 2 ∧
    getProductPerformance.productCount r =
      length (getProductPerformance.products r) ∧
    ∀ product key,
      product ∈ getProductPerformance.products r →
      is_Some (product !! key) ↔
      key ≠ "__proto__" ∧
      key ∈ shopifyql.name <$> [col "product_title"; col "orders"].
Proof.
  apply (proj1 (row_objects_have_column_names (answering twoRows) twoRows
                  eq_refl) mugsInput eq_refl).
Defined.

(** ** More on the builder *)

Lemma given_idemp (input : option string) : given (given input) = given input.
Proof.
  destruct input as [s|]; [|done]. cbn.
  destruct (String.eqb s "") eqn:Hs; [done|]. cbn. by rewrite Hs.
Qed.

(** X11: an empty string for [where], [groupBy] or [orderBy] is treated
    as the input being left out: the query is the one built without it. *)
Theorem empty_inputs_are_omitted (o : Options) :
  buildShopifyQLQuery o = buildShopifyQLQuery (withoutEmpty o) ∧
  (where_ o = Some "" → where_ (withoutEmpty o) = None) ∧
  (groupBy o = Some "" → groupBy (withoutEmpty o) = None) ∧
  (orderBy o = Some "" → orderBy (withoutEmpty o) = None).
Proof.
  split.
  - unfold buildShopifyQLQuery. rewrite !buildParts_clauses.
    unfold clauses, whereClause, groupByClause, orderByClause,
      explicitOrderBy, defaultOrderBy, limitClause, fromClause, showClause,
      periodClause, withoutEmpty. cbn.
    by rewrite !given_idemp.
  - unfold withoutEmpty. cbn. by repeat split; intros ->.
Qed.

Lemma empty_inputs_are_omitted_witness :
  buildShopifyQLQuery
    {| from := "sales"; show := ["orders"]; where_ := Some "";
       groupBy := Some ""; period := "today"; orderBy := Some "";
       limit := None |} =
  buildShopifyQLQuery
    {| from := "sales"; show := ["orders"]; where_ := None;
       groupBy := None; period := "today"; orderBy := None;
       limit := None |}.
Proof.
  apply (proj1 (empty_inputs_are_omitted
                  {| from := "sales"; show := ["orders"]; where_ := Some "";
                     groupBy := Some ""; period := "today";
                     orderBy := Some ""; limit := None |})).
Defined.

(** X12: an ordering given by the caller replaces the default ordering
    of the grouping, and its text goes into the query as it is: the
    builder puts no ORDER BY keyword in front of it. *)
Theorem explicit_orderBy_is_verbatim (o : Options) (ordering : string) :
  orderBy o = Some ordering → ordering ≠ "" →
  buildParts o =
    ([fromClause o; showClause o] ++ whereClause o ++ [periodClause o] ++
     groupByClause o ++ [VString ordering] ++ limitClause o)%list ∧
  (limit o = None →
   endsWith (buildShopifyQLQuery o) (" " +:+ ordering)).
Proof.
  intros Hordering Hne.
  assert (buildParts o =
            ([fromClause o; showClause o] ++ whereClause o ++
             [periodClause o] ++ groupByClause o ++ [VString ordering] ++
             limitClause o)%list) as Hparts.
  { rewrite buildParts_clauses. unfold clauses, orderByClause, explicitOrderBy.
    rewrite Hordering. cbn. apply String.eqb_neq in Hne. by rewrite Hne. }
  split; [done|]. intros Hlimit. unfold buildShopifyQLQuery.
  rewrite Hparts. unfold limitClause. rewrite Hlimit, app_nil_r.
  rewrite !app_assoc. rewrite Array_join_snoc by (by destruct (whereClause o)).
  eexists. reflexivity.
Qed.

Lemma explicit_orderBy_is_verbatim_witness :
  endsWith
    (buildShopifyQLQuery
       {| from := "sales"; show := ["orders"]; where_ := None;
          groupBy := Some "day"; period := "today";
          orderBy := Some "orders DESC"; limit := None |})
    " orders DESC".
Proof.
  apply (explicit_orderBy_is_verbatim
           {| from := "sales"; show := ["orders"]; where_ := None;
              groupBy := Some "day"; period := "today";
              orderBy := Some "orders DESC"; limit := None |}
           "orders DESC" eq_refl); [discriminate | reflexivity].
Defined.

(** What a lookup with a fallback yields is never [undefined], so it
    joins as it converts. *)
Lemma join_element_or_else (own : gmap string string) (key d : string) :
  join_element (or_else (Get own key) (VString d)) =
  ToString (or_else (Get own key) (VString d)).
Proof.
  unfold or_else, Get. destruct (own !! key) as [s|].
  - cbn. by destruct (String.eqb s "").
  - by case_bool_decide.
Qed.

(** ** The hand-written queries and the builder *)

(** X13: for a non-empty product type and a limit other than 0 and NaN,
    the query that get-product-performance writes by hand is the query the
    builder gives for the same parts (grouping "product", the ordering
    given outright). *)
Theorem productPerformance_query_is_built
    (input : getProductPerformance.Input) (t : string) (z : Z) :
  getProductPerformance.productType input = Some t → t ≠ "" →
  getProductPerformance.limit input = Num z → z ≠ 0%Z →
  getProductPerformance.shopifyqlQuery input =
    buildShopifyQLQuery (productOptions input t).
Proof.
  intros Ht Hne Hz Hzero.
  unfold buildShopifyQLQuery. rewrite buildParts_clauses.
  unfold getProductPerformance.shopifyqlQuery, clauses, whereClause,
    groupByClause, orderByClause, explicitOrderBy, limitClause, fromClause,
    showClause, periodClause, productOptions. cbn.
  rewrite Ht, Hz. cbn. apply String.eqb_neq in Hne. rewrite Hne. cbn.
  destruct (decide (z = 0%Z)); [done|].
  assert (("product_type = '" +:+ t +:+ "'" =? "") = false) as -> by done.
  assert (("ORDER BY " +:+ getProductPerformance.sortBy input +:+ " DESC"
           =? "") = false) as -> by done.
  cbn. unfold periodToShopifyQL. rewrite join_element_or_else.
  rewrite !append_assoc. reflexivity.
Qed.

Lemma productPerformance_query_is_built_witness :
  getProductPerformance.shopifyqlQuery mugsInput =
  "FROM sales SHOW product_title, total_sales, orders, units_sold WHERE product_type = 'Mugs' SINCE -30d GROUP BY product_title ORDER BY orders DESC LIMIT 20".
Proof.
  rewrite (productPerformance_query_is_built mugsInput "Mugs" 20 eq_refl);
    [by vm_compute | discriminate | reflexivity | discriminate].
Defined.

(** X14: get-product-performance writes the limit into its query
    whatever it is, 0 and NaN included; and without a product type (or
    with an empty one) the place of the WHERE clause stays as a second
    space between the metrics and the period. *)
Theorem productPerformance_query_edges (input : getProductPerformance.Input) :
  endsWith (getProductPerformance.shopifyqlQuery input)
    (" DESC LIMIT " +:+
     Number_toString (getProductPerformance.limit input)) ∧
  (given (getProductPerformance.productType input) = None →
   getProductPerformance.shopifyqlQuery input =
     "FROM sales SHOW product_title, total_sales, orders, units_sold  " +:+
     ToString (periodToShopifyQL (getProductPerformance.period input)) +:+
     " GROUP BY product_title ORDER BY " +:+
     getProductPerformance.sortBy input +:+ " DESC LIMIT " +:+
     Number_toString (getProductPerformance.limit input)).
Proof.
  split.
  - unfold getProductPerformance.shopifyqlQuery. cbn.
    eexists. rewrite <- !append_assoc. reflexivity.
  - intros Hnone. unfold getProductPerformance.shopifyqlQuery.
    assert (ToBoolean
              (optional VString (getProductPerformance.productType input)) =
            false) as ->.
    { destruct (getProductPerformance.productType input) as [t|]; [|done].
      cbn in *. by destruct (String.eqb t ""). }
    reflexivity.
Qed.

Lemma productPerformance_query_edges_witness :
  getProductPerformance.shopifyqlQuery
    {| getProductPerformance.period := "last_7_days";
       getProductPerformance.sortBy := "total_sales";
       getProductPerformance.limit := Num 0;
       getProductPerformance.productType := Some "" |} =
  "FROM sales SHOW product_title, total_sales, orders, units_sold  SINCE -7d GROUP BY product_title ORDER BY total_sales DESC LIMIT 0".
Proof.
  rewrite (proj2 (productPerformance_query_edges
                    {| getProductPerformance.period := "last_7_days";
                       getProductPerformance.sortBy := "total_sales";
                       getProductPerformance.limit := Num 0;
                       getProductPerformance.productType := Some "" |})
             eq_refl).
  by vm_compute.
Defined.

(** X15: for every period, the retention query and the spending query
    that get-customer-analytics writes by hand are the queries the builder
    gives for the groupings "customer_type" and "region" (the latter with
    the limit 20); neither depends on the [groupBy] of the input. *)
Theorem customerAnalytics_queries_are_built (period groupBy : string) :
  getCustomerAnalytics.shopifyqlQuery
    {| getCustomerAnalytics.period := period;
       getCustomerAnalytics.reportType := "retention";
       getCustomerAnalytics.groupBy := groupBy |} =
    buildShopifyQLQuery (retentionOptions period) ∧
  getCustomerAnalytics.shopifyqlQuery
    {| getCustomerAnalytics.period := period;
       getCustomerAnalytics.reportType := "spending";
       getCustomerAnalytics.groupBy := groupBy |} =
    buildShopifyQLQuery (spendingOptions period).
Proof.
  unfold buildShopifyQLQuery. rewrite !buildParts_clauses.
  unfold getCustomerAnalytics.shopifyqlQuery, clauses, whereClause,
    groupByClause, orderByClause, explicitOrderBy, defaultOrderBy,
    limitClause, fromClause, showClause, periodClause, retentionOptions,
    spendingOptions, Array_join. cbn.
  unfold periodToShopifyQL. rewrite join_element_or_else.
  split; by rewrite ?append_assoc.
Qed.

(** X16: a report type other than "acquisition", "retention" and
    "spending" gets the overview query, and the overview and acquisition
    queries group by customer type and the [groupBy] of the input and
    order by the latter. *)
Theorem customerAnalytics_default_is_overview
    (input : getCustomerAnalytics.Input) :
  (getCustomerAnalytics.reportType input ∉
     ["acquisition"; "retention"; "spending"] →
   getCustomerAnalytics.shopifyqlQuery input =
     getCustomerAnalytics.shopifyqlQuery
       {| getCustomerAnalytics.period := getCustomerAnalytics.period input;
          getCustomerAnalytics.reportType := "overview";
          getCustomerAnalytics.groupBy :=
            getCustomerAnalytics.groupBy input |}) ∧
  (getCustomerAnalytics.reportType input ∉ ["retention"; "spending"] →
   endsWith (getCustomerAnalytics.shopifyqlQuery input)
     (" GROUP BY customer_type, " +:+ getCustomerAnalytics.groupBy input +:+
      " ORDER BY " +:+ getCustomerAnalytics.groupBy input)).
Proof.
  unfold getCustomerAnalytics.shopifyqlQuery.
  cbn [getCustomerAnalytics.period getCustomerAnalytics.reportType
       getCustomerAnalytics.groupBy].
  split; intros Htype.
  - destruct (String.eqb_spec (getCustomerAnalytics.reportType input)
                "acquisition") as [Heq|_].
    { exfalso. apply Htype. rewrite Heq. apply list_elem_of_here. }
    destruct (String.eqb_spec (getCustomerAnalytics.reportType input)
                "retention") as [Heq|_].
    { exfalso. apply Htype. rewrite Heq.
      apply list_elem_of_further, list_elem_of_here. }
    destruct (String.eqb_spec (getCustomerAnalytics.reportType input)
                "spending") as [Heq|_]; [|done].
    exfalso. apply Htype. rewrite Heq.
    do 2 apply list_elem_of_further. apply list_elem_of_here.
  - destruct (String.eqb_spec (getCustomerAnalytics.reportType input)
                "acquisition") as [_|_].
    { eexists. rewrite <- !append_assoc. reflexivity. }
    destruct (String.eqb_spec (getCustomerAnalytics.reportType input)
                "retention") as [Heq|_].
    { exfalso. apply Htype. rewrite Heq. apply list_elem_of_here. }
    destruct (String.eqb_spec (getCustomerAnalytics.reportType input)
                "spending") as [Heq|_].
    { exfalso. apply Htype. rewrite Heq.
      apply list_elem_of_further, list_elem_of_here. }
    eexists. rewrite <- !append_assoc. reflexivity.
Qed.

Lemma customerAnalytics_default_is_overview_witness :
  getCustomerAnalytics.shopifyqlQuery
    {| getCustomerAnalytics.period := "this_year";
       getCustomerAnalytics.reportType := "churn";
       getCustomerAnalytics.groupBy := "week" |} =
  getCustomerAnalytics.shopifyqlQuery
    {| getCustomerAnalytics.period := "this_year";
       getCustomerAnalytics.reportType := "overview";
       getCustomerAnalytics.groupBy := "week" |}.
Proof.
  apply (proj1 (customerAnalytics_default_is_overview
                  {| getCustomerAnalytics.period := "this_year";
                     getCustomerAnalytics.reportType := "churn";
                     getCustomerAnalytics.groupBy := "week" |})).
  apply (bool_decide_unpack _). exact I.
Defined.

(** ** The sales report *)

(** X17: for each grouping the schema of get-sales-report admits and a
    limit other than 0 and NaN, the query has no WHERE clause and reads
    FROM sales, SHOW with the metrics, the period, GROUP BY on the column
    of the grouping, ORDER BY on its default ordering, LIMIT. *)
Theorem salesReport_query (input : getSalesReport.Input) (z : Z) :
  getSalesReport.groupBy input ∈ reportGroupings →
  getSalesReport.limit input = Num z → z ≠ 0%Z →
  getSalesReport.shopifyqlQuery input =
    "FROM sales SHOW " +:+ String.concat ", " (getSalesReport.metrics input) +:+
    " " +:+ ToString (periodToShopifyQL (getSalesReport.period input)) +:+
    " GROUP BY " +:+ column (getSalesReport.groupBy input) +:+
    " ORDER BY " +:+ ordering (getSalesReport.groupBy input) +:+
    " LIMIT " +:+ Number_toString (Num z).
Proof.
  intros Hgrouping Hlimit Hzero.
  unfold getSalesReport.shopifyqlQuery, buildShopifyQLQuery.
  rewrite buildParts_clauses.
  unfold clauses, whereClause, groupByClause, orderByClause, explicitOrderBy,
    defaultOrderBy, limitClause, fromClause, showClause, periodClause.
  cbn [from show where_ groupBy period orderBy limit given].
  rewrite Hlimit. destruct (decide (z = 0%Z)); [done|].
  unfold reportGroupings in Hgrouping.
  repeat (apply elem_of_cons in Hgrouping as [->|Hgrouping]).
  7: by apply elem_of_nil in Hgrouping.
  all: unfold Array_join; cbn [String.eqb Ascii.eqb Bool.eqb];
    cbn [fmap list_fmap app];
    unfold periodToShopifyQL; rewrite join_element_or_else;
    cbn; by rewrite ?append_assoc.
Qed.

Lemma salesReport_query_witness :
  getSalesReport.shopifyqlQuery
    {| getSalesReport.period := "this_month";
       getSalesReport.groupBy := "channel";
       getSalesReport.metrics := ["net_sales"];
       getSalesReport.limit := Num 100 |} =
  "FROM sales SHOW net_sales SINCE startOfMonth(0m) GROUP BY sales_channel ORDER BY total_sales DESC LIMIT 100".
Proof.
  rewrite (salesReport_query
             {| getSalesReport.period := "this_month";
                getSalesReport.groupBy := "channel";
                getSalesReport.metrics := ["net_sales"];
                getSalesReport.limit := Num 100 |} 100);
    [by vm_compute | apply (bool_decide_unpack _); exact I
    | reflexivity | discriminate].
Defined.

(** ** Collections *)

(** X18: the filter of get-collections is absent when there is neither
    a search text nor one of the types "smart" and "manual"; else it is
    the title pattern, the type term, or both joined by " AND ", where the
    type "manual" is sent as "collection_type:custom". *)
Theorem collections_filter (input : getCollections.Input) :
  let typeTerm :=
    if String.eqb (getCollections.collectionType input) "smart"
    then Some "collection_type:smart"
    else if String.eqb (getCollections.collectionType input) "manual"
    then Some "collection_type:custom"
    else None in
  getCollections.queryFilter input =
    match given (getCollections.searchQuery input), typeTerm with
    | Some q, Some term => Some ("title:*" +:+ q +:+ "* AND " +:+ term)
    | Some q, None => Some ("title:*" +:+ q +:+ "*")
    | None, Some term => Some term
    | None, None => None
    end.
Proof.
  cbv zeta. unfold getCollections.queryFilter.
  destruct (getCollections.searchQuery input) as [q|]; cbn;
    [destruct (String.eqb q ""); cbn|];
    destruct (String.eqb (getCollections.collectionType input) "smart");
    cbn; try done;
    destruct (String.eqb (getCollections.collectionType input) "manual");
    cbn; try done;
    by rewrite ?append_assoc.
Qed.

(** X19: a mapped collection is "smart" exactly when the response gives
    it a rule set with at least one rule, and exactly then it carries
    rules, those of the response; an image URL or alternative text that
    is empty comes out as null. *)
Theorem formatCollection_type_and_rules (node : getCollections.CollectionNode) :
  let mapped := getCollections.formatCollection node in
  (getCollections.result_collectionType mapped = "smart" ∨
   getCollections.result_collectionType mapped = "manual") ∧
  (getCollections.result_collectionType mapped = "smart" ↔
   ∃ ruleSet, getCollections.ruleSet node = Some ruleSet ∧
              getCollections.rules ruleSet ≠ []) ∧
  (getCollections.result_collectionType mapped = "smart" ↔
   is_Some (getCollections.result_rules mapped)) ∧
  (∀ ruleSet, getCollections.result_rules mapped = Some ruleSet →
              getCollections.ruleSet node = Some ruleSet) ∧
  getCollections.imageUrl mapped ≠ Some "" ∧
  getCollections.imageAltText mapped ≠ Some "" ∧
  getCollections.imageUrl mapped =
    match getCollections.image node with
    | Some image =>
        if String.eqb (getCollections.url image) "" then None
        else Some (getCollections.url image)
    | None => None
    end ∧
  getCollections.imageAltText mapped =
    match getCollections.image node with
    | Some image =>
        match getCollections.altText image with
        | Some "" | None => None
        | Some text => Some text
        end
    | None => None
    end.
Proof.
  cbv zeta. unfold getCollections.formatCollection. cbn.
  assert (∀ s, getCollections.or_null s ≠ Some "") as Hnull.
  { intros [s|]; cbn; [|done]. destruct (String.eqb_spec s ""); congruence. }
  split_and!.
  8: { by destruct (getCollections.image node) as [[url [[|c text]|]]|]. }
  7: { by destruct (getCollections.image node) as [[url text]|]. }
  all: try apply Hnull;
    destruct (getCollections.ruleSet node) as [[disjunctive [|rule rules]]|];
    cbn; repeat case_bool_decide; try (cbn in *; lia).
  all: try done; try (by left); try (by right).
  all: try (split;
            [ first [done | by eexists]
            | first [ done
                    | by intros (ruleSet & [= <-] & ?)
                    | by intros (ruleSet & [=] & ?)
                    | by intros [? ?] ] ]).
  all: by intros ruleSet [= <-].
Qed.

(** ** Periods *)

(** X20: for whatever string, [periodToShopifyQL] gives a truthy value,
    never [undefined] and never the empty string; for each of the nine
    periods of the schemas it is a clause that starts with SINCE or
    DURING, and for a string that is none of them and no name of a
    property of [Object.prototype] it is "SINCE -30d". *)
Theorem periodToShopifyQL_clause (period : string) :
  ToBoolean (periodToShopifyQL period) = true ∧
  (period ∈ supportedPeriods →
   ∃ clause, periodToShopifyQL period = VString clause ∧
             (startsWith clause "SINCE " ∨ startsWith clause "DURING ")) ∧
  (period ∉ supportedPeriods → period ∉ Object_prototype_keys →
   periodToShopifyQL period = VString "SINCE -30d").
Proof.
  split; [|split].
  - unfold periodToShopifyQL, or_else.
    by destruct (ToBoolean (Get periodMap period)) eqn:Htruthy.
  - unfold supportedPeriods. intros H.
    repeat (apply elem_of_cons in H as [->|H]).
    10: by apply elem_of_nil in H.
    all: eexists; (split; [vm_compute; reflexivity|]).
    all: first [left; by eexists | right; by eexists].
  - apply periodToShopifyQL_fallback.
Qed.

Lemma periodToShopifyQL_clause_witness :
  (∃ clause, periodToShopifyQL "last_month" = VString clause ∧
             (startsWith clause "SINCE " ∨ startsWith clause "DURING ")) ∧
  periodToShopifyQL "last_week" = VString "SINCE -30d".
Proof.
  split.
  - apply (proj1 (proj2 (periodToShopifyQL_clause "last_month"))).
    apply (bool_decide_unpack _). exact I.
  - apply (proj2 (proj2 (periodToShopifyQL_clause "last_week")));
      apply (bool_decide_unpack _); exact I.
Defined.

(** ** Start-up *)

Section Startup.
Context {V : Type} (truthy : V → bool) (render : V → string).

(** A setting is there when its flag is truthy or, failing that, its
    environment variable is a non-empty string. *)
Lemma present_or_env (flag : option V) (env : option string) :
  index.present truthy (index.or_env truthy flag env) = true ↔
  (∃ v, flag = Some v ∧ truthy v = true) ∨
  (∃ s, env = Some s ∧ s ≠ "").
Proof.
  unfold index.or_env.
  assert (index.present truthy (index.FromEnv env) = true ↔
          ∃ s, env = Some s ∧ s ≠ "") as Henv.
  { destruct env as [s|]; cbn.
    - destruct (String.eqb_spec s ""); cbn.
      + split; [done|]. by intros (? & [= <-] & ?).
      + split; [by eexists|done].
    - split; [done|]. by intros (? & [=] & ?). }
  destruct flag as [v|].
  - destruct (truthy v) eqn:Hv.
    + cbn. rewrite Hv. split; [|done]. left. by exists v.
    + rewrite Henv. split; [by right|].
      intros [(v' & [= <-] & Hv')|H]; [congruence|done].
  - rewrite Henv. split; [by right|]. by intros [(? & [=] & _)|H].
Qed.

(** X21: the script gets past its checks exactly when the access token
    and the domain are both there, each from a truthy flag or else a
    non-empty environment variable; otherwise it exits with status 1, and
    when the token is missing the lines it writes are about the token,
    whatever the domain. *)
Theorem start_requires_both_settings
    (argv_accessToken argv_domain : option V)
    (env_token env_domain : option string) :
  let tokenThere :=
    (∃ v, argv_accessToken = Some v ∧ truthy v = true) ∨
    (∃ s, env_token = Some s ∧ s ≠ "") in
  let domainThere :=
    (∃ v, argv_domain = Some v ∧ truthy v = true) ∨
    (∃ s, env_domain = Some s ∧ s ≠ "") in
  let outcome :=
    index.start truthy render argv_accessToken argv_domain
      env_token env_domain in
  ((∃ endpoint token contentType,
      outcome = index.Running endpoint token contentType) ↔
   tokenThere ∧ domainThere) ∧
  ((∃ lines, outcome = index.Exit 1 lines) ↔ ¬ (tokenThere ∧ domainThere)) ∧
  (¬ tokenThere →
   ∃ lines,
     outcome =
       index.Exit 1 ("Error: SHOPIFY_ACCESS_TOKEN is required." :: lines)).
Proof.
  cbv zeta. rewrite <- !present_or_env. unfold index.start.
  destruct (index.present truthy
              (index.or_env truthy argv_accessToken env_token));
    destruct (index.present truthy
                (index.or_env truthy argv_domain env_domain)); cbn.
  all: split_and!.
  all: try (intros Hmissing; first [done | by eexists]).
  all: split;
    first [ by intros (? & ? & ? & ?) | by intros [? ?] | by intros _; eauto
          | done
          | intros _; by intros [? ?]
          | intros H; exfalso; by apply H ].
Qed.

(** X22: a truthy flag wins over the environment variable of the same
    setting, which is read only when the flag is absent or falsy; and the
    endpoint is built from the domain so resolved. *)
Theorem flags_override_environment
    (argv_accessToken argv_domain : option V)
    (env_token env_domain : option string) (token domain : V) :
  argv_accessToken = Some token → truthy token = true →
  argv_domain = Some domain → truthy domain = true →
  index.start truthy render argv_accessToken argv_domain
    env_token env_domain =
  index.Running
    ("https://" +:+ render domain +:+ "/admin/api/2025-10/graphql.json")
    (index.FromArgv token) "application/json".
Proof.
  intros -> Htoken -> Hdomain. unfold index.start, index.or_env.
  rewrite Htoken, Hdomain. cbn. by rewrite Htoken, Hdomain.
Qed.

(** X23: without flags, or with falsy ones, the settings are the
    environment variables. *)
Theorem environment_is_the_fallback
    (argv_accessToken argv_domain : option V) (token domain : string) :
  (∀ v, argv_accessToken = Some v → truthy v = false) →
  (∀ v, argv_domain = Some v → truthy v = false) →
  token ≠ "" → domain ≠ "" →
  index.start truthy render argv_accessToken argv_domain
    (Some token) (Some domain) =
  index.Running
    ("https://" +:+ domain +:+ "/admin/api/2025-10/graphql.json")
    (index.FromEnv (Some token)) "application/json".
Proof.
  intros Htoken Hdomain Ht Hd. unfold index.start, index.or_env.
  apply String.eqb_neq in Ht. apply String.eqb_neq in Hd.
  destruct argv_accessToken as [v|]; [rewrite (Htoken v eq_refl)|];
    destruct argv_domain as [v'|]; try rewrite (Hdomain v' eq_refl);
    cbn; by rewrite Ht, Hd.
Qed.

End Startup.

Lemma flags_override_environment_witness :
  index.start flagTruthy flagText (Some "shpat_1") (Some "a.myshopify.com")
    (Some "shpat_2") (Some "b.myshopify.com") =
  index.Running "https://a.myshopify.com/admin/api/2025-10/graphql.json"
    (index.FromArgv "shpat_1") "application/json".
Proof.
  apply (flags_override_environment flagTruthy flagText
           (Some "shpat_1") (Some "a.myshopify.com")
           (Some "shpat_2") (Some "b.myshopify.com")
           "shpat_1" "a.myshopify.com"); reflexivity.
Defined.

Lemma environment_is_the_fallback_witness :
  index.start flagTruthy flagText (Some "") None
    (Some "shpat_2") (Some "b.myshopify.com") =
  index.Running "https://b.myshopify.com/admin/api/2025-10/graphql.json"
    (index.FromEnv (Some "shpat_2")) "application/json".
Proof.
  apply (environment_is_the_fallback flagTruthy flagText (Some "") None
           "shpat_2" "b.myshopify.com");
    [by intros v [= <-] | by intros v [=] | discriminate | discriminate].
Defined.

Lemma start_requires_both_settings_witness :
  ∃ lines,
    index.start flagTruthy flagText None (Some "a.myshopify.com") None None =
    index.Exit 1 ("Error: SHOPIFY_ACCESS_TOKEN is required." :: lines).
Proof.
  apply (start_requires_both_settings flagTruthy flagText
           None (Some "a.myshopify.com") None None).
  by intros [(? & [=] & _)|(? & [=] & _)].
Defined.
